(** * keycloak-proxy: configuration resolution and validation (config.go)

    A shallow embedding of [config.go]: the default configuration, the
    validator [Config.isValid], the command-line overlay [readOptions], the
    file loader [readConfigFile] and the flag table [getOptions], with the
    properties the specification states about them and further properties
    of the code.

    Go values are modelled as the language has them: a string is a sequence
    of bytes, a slice and a map may be [nil], a [time.Duration] is a count
    of nanoseconds, a method with a pointer receiver threads the pointed
    value, and an [error] result is an optional error value. *)

From Stdlib Require Import ZArith String Ascii List Bool Lia.
From stdpp Require Import base option gmap strings list fin_maps pretty.

Local Open Scope string_scope.

(** ** Go values *)

(** A slice is [nil] ([None]) or holds a sequence of elements. *)
Definition slice (A : Type) : Type := option (list A).

Definition elems {A} (s : slice A) : list A :=
  match s with
  | Some l => l
  | None => []
  end.

(** The built-in [len] on slices: a nil slice has length zero. *)
Definition len {A} (s : slice A) : nat := List.length (elems s).

(** The built-in [append(s, xs...)]: with nothing to add the slice comes
    back as it is (a nil slice stays nil); otherwise the result is a slice
    holding the elements of [s] followed by [xs]. *)
Definition append {A} (s : slice A) (xs : list A) : slice A :=
  match xs with
  | [] => s
  | _ :: _ => Some (elems s ++ xs)%list
  end.

(** A [map[string]string] is [nil] ([None]) or a finite map. *)
Definition gomap : Type := option (gmap string string).

(** [make(map[string]string, 0)]. *)
Definition make_map : gomap := Some ∅.

(** The entries a [range] over the map visits; none for a nil map. *)
Definition entries (m : gomap) : gmap string string :=
  match m with
  | Some kv => kv
  | None => ∅
  end.

Module time.
(** [time.Duration] is an [int64] count of nanoseconds. *)
Definition Duration : Type := Z.
Definition Second : Duration := 1000000000%Z.
End time.

Module strings.
(** [strings.HasPrefix(s, prefix)]. *)
Definition HasPrefix (s prefix : string) : bool := String.prefix prefix s.

(** [strings.HasSuffix(s, suffix)]:
    [len(s) >= len(suffix) && s[len(s)-len(suffix):] == suffix]. *)
Definition HasSuffix (s suffix : string) : bool :=
  (String.length suffix <=? String.length s)%nat &&
  String.eqb
    (String.substring (String.length s - String.length suffix)
                      (String.length suffix) s)
    suffix.

(** [strings.TrimSuffix(s, suffix)]: [s[:len(s)-len(suffix)]] when [s]
    ends in [suffix], [s] otherwise. *)
Definition TrimSuffix (s suffix : string) : string :=
  if HasSuffix s suffix
  then String.substring 0 (String.length s - String.length suffix) s
  else s.
End strings.

Module filepath.
(** [os.IsPathSeparator] on the platforms where the separator is the
    slash. *)
Definition IsPathSeparator (c : ascii) : bool := Ascii.eqb c "/".

(** The loop of [filepath.Ext]: [i] counts down from [len(path)]; the
    byte looked at is [path[i-1]]. *)
Fixpoint Ext_loop (path : string) (i : nat) : string :=
  match i with
  | O => ""
  | S j =>
      match String.get j path with
      | None => ""
      | Some c =>
          if IsPathSeparator c then ""
          else if Ascii.eqb c "." then
            String.substring j (String.length path - j) path
          else Ext_loop path j
      end
  end.

(** [filepath.Ext(path)]: the suffix beginning at the final dot in the
    final element of [path]; empty if there is no dot. *)
Definition Ext (path : string) : string :=
  Ext_loop path (String.length path).
End filepath.

(** ** Data model *)

Module Resource.
(** Modelled from the spec: the declaration of the [Resource] struct is
    not part of [config.go]; the fields are the ones the data model
    names (URI pattern, allowed methods, required roles, and the
    white-listed flag of the descriptor language). *)
Record Resource : Type := {
  URL : string;
  Methods : slice string;
  Roles : slice string;
  WhiteListed : bool;
}.
End Resource.
Abbreviation Resource := Resource.Resource.

Module CORS.
(** Modelled from the spec: the declaration of the [CORS] struct is not
    part of [config.go]; the fields are the ones [readOptions] assigns
    (the CORS group of the data model), each at the type of the accessor
    it is assigned from. *)
Record CORS : Type := {
  Origins : slice string;
  Methods : slice string;
  Headers : slice string;
  ExposedHeaders : slice string;
  MaxAge : time.Duration;
  Credentials : bool;
}.

Definition eta (c : CORS) : CORS :=
  {| Origins := Origins c; Methods := Methods c; Headers := Headers c;
     ExposedHeaders := ExposedHeaders c; MaxAge := MaxAge c;
     Credentials := Credentials c |}.

(** The zero value [CORS{}]. *)
Definition zero : CORS :=
  {| Origins := None; Methods := None; Headers := None;
     ExposedHeaders := None; MaxAge := 0%Z; Credentials := false |}.
End CORS.
Abbreviation CORS := CORS.CORS.

(** Modelled from the spec: the declaration of the [Config] struct is not
    part of [config.go]; the fields are the ones [config.go] reads and
    writes (the groups of the data model), each at the type its uses
    there fix. *)
Record Config : Type := {
  Listen : string;
  DiscoveryURL : string;
  ClientID : string;
  ClientSecret : string;
  RevocationEndpoint : string;
  RedirectionURL : string;
  Upstream : string;
  StoreURL : string;
  EncryptionKey : string;
  CookieDomain : string;
  CookieAccessName : string;
  CookieRefreshName : string;
  TLSCertificate : string;
  TLSPrivateKey : string;
  TLSCaCertificate : string;
  TLSClientCertificate : string;
  ForwardingUsername : string;
  ForwardingPassword : string;
  SignInPage : string;
  ForbiddenPage : string;
  UpstreamKeepalives : bool;
  SkipTokenVerification : bool;
  SkipUpstreamTLSVerify : bool;
  SecureCookie : bool;
  NoRedirects : bool;
  EnableMetrics : bool;
  EnableProxyProtocol : bool;
  EnableForwarding : bool;
  EnableRefreshTokens : bool;
  EnableSecurityFilter : bool;
  LogJSONFormat : bool;
  LogRequests : bool;
  Verbose : bool;
  UpstreamTimeout : time.Duration;
  UpstreamKeepaliveTimeout : time.Duration;
  IdleDuration : time.Duration;
  Scopes : slice string;
  AddClaims : slice string;
  Hostnames : slice string;
  ForwardingDomains : slice string;
  Resources : slice Resource;
  TagData : gomap;
  MatchClaims : gomap;
  Headers : gomap;
  CrossOrigin : CORS;
}.

Definition Config_eta (c : Config) : Config :=
  {| Listen := Listen c; DiscoveryURL := DiscoveryURL c;
     ClientID := ClientID c; ClientSecret := ClientSecret c;
     RevocationEndpoint := RevocationEndpoint c;
     RedirectionURL := RedirectionURL c; Upstream := Upstream c;
     StoreURL := StoreURL c; EncryptionKey := EncryptionKey c;
     CookieDomain := CookieDomain c;
     CookieAccessName := CookieAccessName c;
     CookieRefreshName := CookieRefreshName c;
     TLSCertificate := TLSCertificate c; TLSPrivateKey := TLSPrivateKey c;
     TLSCaCertificate := TLSCaCertificate c;
     TLSClientCertificate := TLSClientCertificate c;
     ForwardingUsername := ForwardingUsername c;
     ForwardingPassword := ForwardingPassword c;
     SignInPage := SignInPage c; ForbiddenPage := ForbiddenPage c;
     UpstreamKeepalives := UpstreamKeepalives c;
     SkipTokenVerification := SkipTokenVerification c;
     SkipUpstreamTLSVerify := SkipUpstreamTLSVerify c;
     SecureCookie := SecureCookie c; NoRedirects := NoRedirects c;
     EnableMetrics := EnableMetrics c;
     EnableProxyProtocol := EnableProxyProtocol c;
     EnableForwarding := EnableForwarding c;
     EnableRefreshTokens := EnableRefreshTokens c;
     EnableSecurityFilter := EnableSecurityFilter c;
     LogJSONFormat := LogJSONFormat c; LogRequests := LogRequests c;
     Verbose := Verbose c; UpstreamTimeout := UpstreamTimeout c;
     UpstreamKeepaliveTimeout := UpstreamKeepaliveTimeout c;
     IdleDuration := IdleDuration c; Scopes := Scopes c;
     AddClaims := AddClaims c; Hostnames := Hostnames c;
     ForwardingDomains := ForwardingDomains c; Resources := Resources c;
     TagData := TagData c; MatchClaims := MatchClaims c;
     Headers := Headers c; CrossOrigin := CrossOrigin c |}.

(** Field assignment [c.f = v]: the record [c] with the field read by
    [proj] replaced by [v], every other field as it was. *)
Ltac assign_in eta proj v c :=
  let e := eval cbv beta delta [eta] in (eta c) in
  match eval pattern (proj c) in e with
  | ?f _ => let r := eval cbv beta in (f v) in exact r
  end.

Definition set_CORS_Origins (v : slice string) (c : CORS) : CORS :=
  ltac:(assign_in CORS.eta CORS.Origins v c).
Definition set_CORS_Methods (v : slice string) (c : CORS) : CORS :=
  ltac:(assign_in CORS.eta CORS.Methods v c).
Definition set_CORS_Headers (v : slice string) (c : CORS) : CORS :=
  ltac:(assign_in CORS.eta CORS.Headers v c).
Definition set_CORS_ExposedHeaders (v : slice string) (c : CORS) : CORS :=
  ltac:(assign_in CORS.eta CORS.ExposedHeaders v c).
Definition set_CORS_MaxAge (v : time.Duration) (c : CORS) : CORS :=
  ltac:(assign_in CORS.eta CORS.MaxAge v c).
Definition set_CORS_Credentials (v : bool) (c : CORS) : CORS :=
  ltac:(assign_in CORS.eta CORS.Credentials v c).
Definition set_Listen (v : string) (c : Config) : Config :=
  ltac:(assign_in Config_eta Listen v c).
Definition set_DiscoveryURL (v : string) (c : Config) : Config :=
  ltac:(assign_in Config_eta DiscoveryURL v c).
Definition set_ClientID (v : string) (c : Config) : Config :=
  ltac:(assign_in Config_eta ClientID v c).
Definition set_ClientSecret (v : string) (c : Config) : Config :=
  ltac:(assign_in Config_eta ClientSecret v c).
Definition set_RevocationEndpoint (v : string) (c : Config) : Config :=
  ltac:(assign_in Config_eta RevocationEndpoint v c).
Definition set_RedirectionURL (v : string) (c : Config) : Config :=
  ltac:(assign_in Config_eta RedirectionURL v c).
Definition set_Upstream (v : string) (c : Config) : Config :=
  ltac:(assign_in Config_eta Upstream v c).
Definition set_StoreURL (v : string) (c : Config) : Config :=
  ltac:(assign_in Config_eta StoreURL v c).
Definition set_EncryptionKey (v : string) (c : Config) : Config :=
  ltac:(assign_in Config_eta EncryptionKey v c).
Definition set_CookieDomain (v : string) (c : Config) : Config :=
  ltac:(assign_in Config_eta CookieDomain v c).
Definition set_CookieAccessName (v : string) (c : Config) : Config :=
  ltac:(assign_in Config_eta CookieAccessName v c).
Definition set_CookieRefreshName (v : string) (c : Config) : Config :=
  ltac:(assign_in Config_eta CookieRefreshName v c).
Definition set_TLSCertificate (v : string) (c : Config) : Config :=
  ltac:(assign_in Config_eta TLSCertificate v c).
Definition set_TLSPrivateKey (v : string) (c : Config) : Config :=
  ltac:(assign_in Config_eta TLSPrivateKey v c).
Definition set_TLSCaCertificate (v : string) (c : Config) : Config :=
  ltac:(assign_in Config_eta TLSCaCertificate v c).
Definition set_TLSClientCertificate (v : string) (c : Config) : Config :=
  ltac:(assign_in Config_eta TLSClientCertificate v c).
Definition set_ForwardingUsername (v : string) (c : Config) : Config :=
  ltac:(assign_in Config_eta ForwardingUsername v c).
Definition set_ForwardingPassword (v : string) (c : Config) : Config :=
  ltac:(assign_in Config_eta ForwardingPassword v c).
Definition set_SignInPage (v : string) (c : Config) : Config :=
  ltac:(assign_in Config_eta SignInPage v c).
Definition set_ForbiddenPage (v : string) (c : Config) : Config :=
  ltac:(assign_in Config_eta ForbiddenPage v c).
Definition set_UpstreamKeepalives (v : bool) (c : Config) : Config :=
  ltac:(assign_in Config_eta UpstreamKeepalives v c).
Definition set_SkipTokenVerification (v : bool) (c : Config) : Config :=
  ltac:(assign_in Config_eta SkipTokenVerification v c).
Definition set_SkipUpstreamTLSVerify (v : bool) (c : Config) : Config :=
  ltac:(assign_in Config_eta SkipUpstreamTLSVerify v c).
Definition set_SecureCookie (v : bool) (c : Config) : Config :=
  ltac:(assign_in Config_eta SecureCookie v c).
Definition set_NoRedirects (v : bool) (c : Config) : Config :=
  ltac:(assign_in Config_eta NoRedirects v c).
Definition set_EnableMetrics (v : bool) (c : Config) : Config :=
  ltac:(assign_in Config_eta EnableMetrics v c).
Definition set_EnableProxyProtocol (v : bool) (c : Config) : Config :=
  ltac:(assign_in Config_eta EnableProxyProtocol v c).
Definition set_EnableForwarding (v : bool) (c : Config) : Config :=
  ltac:(assign_in Config_eta EnableForwarding v c).
Definition set_EnableRefreshTokens (v : bool) (c : Config) : Config :=
  ltac:(assign_in Config_eta EnableRefreshTokens v c).
Definition set_EnableSecurityFilter (v : bool) (c : Config) : Config :=
  ltac:(assign_in Config_eta EnableSecurityFilter v c).
Definition set_LogJSONFormat (v : bool) (c : Config) : Config :=
  ltac:(assign_in Config_eta LogJSONFormat v c).
Definition set_LogRequests (v : bool) (c : Config) : Config :=
  ltac:(assign_in Config_eta LogRequests v c).
Definition set_Verbose (v : bool) (c : Config) : Config :=
  ltac:(assign_in Config_eta Verbose v c).
Definition set_UpstreamTimeout (v : time.Duration) (c : Config) : Config :=
  ltac:(assign_in Config_eta UpstreamTimeout v c).
Definition set_UpstreamKeepaliveTimeout (v : time.Duration) (c : Config) : Config :=
  ltac:(assign_in Config_eta UpstreamKeepaliveTimeout v c).
Definition set_IdleDuration (v : time.Duration) (c : Config) : Config :=
  ltac:(assign_in Config_eta IdleDuration v c).
Definition set_Scopes (v : slice string) (c : Config) : Config :=
  ltac:(assign_in Config_eta Scopes v c).
Definition set_AddClaims (v : slice string) (c : Config) : Config :=
  ltac:(assign_in Config_eta AddClaims v c).
Definition set_Hostnames (v : slice string) (c : Config) : Config :=
  ltac:(assign_in Config_eta Hostnames v c).
Definition set_ForwardingDomains (v : slice string) (c : Config) : Config :=
  ltac:(assign_in Config_eta ForwardingDomains v c).
Definition set_Resources (v : slice Resource) (c : Config) : Config :=
  ltac:(assign_in Config_eta Resources v c).
Definition set_TagData (v : gomap) (c : Config) : Config :=
  ltac:(assign_in Config_eta TagData v c).
Definition set_MatchClaims (v : gomap) (c : Config) : Config :=
  ltac:(assign_in Config_eta MatchClaims v c).
Definition set_Headers (v : gomap) (c : Config) : Config :=
  ltac:(assign_in Config_eta Headers v c).
Definition set_CrossOrigin (v : CORS) (c : Config) : Config :=
  ltac:(assign_in Config_eta CrossOrigin v c).

(** ** Errors *)

(** The error values [config.go] returns: one constructor for each message
    it formats, carrying the formatted arguments, and [errHelper] for an
    error handed on unchanged from a helper ([Resource.IsValid],
    [decodeKeyPairs], [ioutil.ReadFile], the decoders).  An error of a
    helper or of the library is represented by its message. *)
Inductive error : Type :=
  | errNoListen
  | errNoPrivateKey
  | errNoCertificate
  | errCertificateMissing (path : string)
  | errPrivateKeyMissing (path : string)
  | errCaCertificateMissing (path : string)
  | errClientCertificateMissing (path : string)
  | errNoClientID
  | errNoDiscoveryURL
  | errNoForwardingUsername
  | errNoForwardingPassword
  | errNoUpstream
  | errUpstreamInvalid (err : string)
  | errNoEncryptionKey
  | errEncryptionKeyLength (n : nat)
  | errInsecureRedirection
  | errStoreURLInvalid (err : string)
  | errClaimMatcher (claim k : string)
  | errInvalidResource (x err : string)
  | errHelper (msg : string).

(** [err.Error()]: the message, as [fmt.Errorf] formats it. *)
Definition Error (e : error) : string :=
  match e with
  | errNoListen => "you have not specified the listening interface"
  | errNoPrivateKey => "you have not provided a private key"
  | errNoCertificate => "you have not provided a certificate file"
  | errCertificateMissing path =>
      "the tls certificate " ++ path ++ " does not exist"
  | errPrivateKeyMissing path =>
      "the tls private key " ++ path ++ " does not exist"
  | errCaCertificateMissing path =>
      "the tls ca certificate file " ++ path ++ " does not exist"
  | errClientCertificateMissing path =>
      "the tls client certificate " ++ path ++ " does not exist"
  | errNoClientID => "you have not specified the client id"
  | errNoDiscoveryURL => "you have not specified the discovery url"
  | errNoForwardingUsername => "no forwarding username"
  | errNoForwardingPassword => "no forwarding password"
  | errNoUpstream =>
      "you have not specified an upstream endpoint to proxy to"
  | errUpstreamInvalid err => "the upstream endpoint is invalid, " ++ err
  | errNoEncryptionKey =>
      "you have not specified a encryption key for encoding the session state"
  | errEncryptionKeyLength n =>
      "the encryption key (" ++ pretty n ++
      ") must be either 16 or 32 characters for AES-128/AES-256 selection"
  | errInsecureRedirection =>
      "the cookie is set to secure but your redirection url is non-tls"
  | errStoreURLInvalid err => "the store url is invalid, error: " ++ err
  | errClaimMatcher claim k =>
      "the claim matcher: " ++ claim ++ " for claim: " ++ k ++
      " is not a valid regex"
  | errInvalidResource x err => "invalid resource " ++ x ++ ", " ++ err
  | errHelper msg => msg
  end.

(** How a call ends: it returns its [error] result ([None] is [nil]), or
    it does not return because of a run-time panic. *)
Inductive outcome : Type :=
  | Returns (err : option error)
  | Panics.

(** ** What [config.go] calls *)

(** The Go library and the host, as far as [config.go] observes them. *)
Class Platform : Type := {
  (** [url.Parse]: the message of its error, if it reports one. *)
  url_Parse : string -> option string;
  (** [regexp.Compile]: the message of its error, if it reports one. *)
  regexp_Compile : string -> option string;
  (** The order in which a [range] statement visits the entries of a map;
      the language leaves it unspecified. *)
  range_order : gmap string string -> list (string * string);
  range_order_perm : forall m, range_order m ≡ₚ map_to_list m;
}.

(** The file system and the decoders, as [readConfigFile] uses them. *)
Class Files : Type := {
  (** [ioutil.ReadFile]: an error message or the content of the file. *)
  ReadFile : string -> string + string;
  (** [json.Unmarshal] and [yaml.Unmarshal] into a [*Config]: the decoded
      configuration and the message of the error, if any. *)
  json_Unmarshal : string -> Config -> Config * option string;
  yaml_Unmarshal : string -> Config -> Config * option string;
}.

(** The functions of the repository that [config.go] calls and that are
    defined in its other files. *)
Class Helpers : Type := {
  (** [fileExists(path)]. *)
  fileExists : string -> bool;
  (** [decodeKeyPairs(list)]: an error message or the decoded map. *)
  decodeKeyPairs : slice string -> string + gomap;
  (** [mergeMaps(dest, source)]: the destination after the call, [None]
      when the call panics. *)
  mergeMaps : gomap -> gomap -> option gomap;
  (** [newResource().Parse(x)]: an error message or the resource. *)
  Resource_Parse : string -> string + Resource;
  (** [resource.IsValid()]: the message of its error, if any; the check
    is taken to leave the resource as it is. *)
  Resource_IsValid : Resource -> option string;
}.

Module cli.
(** The accessors of [*cli.Context] that [readOptions] calls, each from
    a flag name to the value the context holds for it. *)
Record Context : Type := {
  IsSet : string -> bool;
  String : string -> string;
  Bool : string -> bool;
  BoolT : string -> bool;
  Duration : string -> time.Duration;
  StringSlice : string -> slice string;
}.
End cli.

(** ** Statements

    The body of a function with receiver or argument [*Config] and result
    [error] is a computation over the pointed configuration that either
    goes on with a value or stops the call with an [outcome]. *)
Definition M (A : Type) : Type := Config -> Config * (outcome + A).

#[export] Instance M_ret : MRet M := fun A a c => (c, inr a).

#[export] Instance M_bind : MBind M := fun A B k m c =>
  match m c with
  | (c', inr a) => k a c'
  | (c', inl o) => (c', inl o)
  end.

(** Read the configuration behind the pointer. *)
Definition get_config : M Config := fun c => (c, inr c).

(** [c.f = v], for the field whose assignment is [set]. *)
Definition store {A} (set : A -> Config -> Config) (v : A) : M unit :=
  fun c => (set v c, inr tt).

(** [return err]. *)
Definition Return {A} (err : option error) : M A :=
  fun c => (c, inl (Returns err)).

(** A run-time panic. *)
Definition Panic {A} : M A := fun c => (c, inl Panics).

(** [if b { body }]. *)
Definition If (b : bool) (body : M unit) : M unit :=
  if b then body else mret tt.

(** [if err != nil { return f(err) }]. *)
Definition ReturnIfErr (err : option string) (f : string -> error) : M unit :=
  match err with
  | Some e => Return (Some (f e))
  | None => mret tt
  end.

(** [for _, x := range l { body }]. *)
Fixpoint for_range {A} (l : list A) (body : A -> M unit) : M unit :=
  match l with
  | [] => mret tt
  | x :: l' => body x;; for_range l' body
  end.

(** A call of a function whose body always ends in a [return]. *)
Definition call (body : M Empty_set) (c : Config) : Config * outcome :=
  match body c with
  | (c', inl o) => (c', o)
  | (_, inr x) => match x with end
  end.

(** ** config.go *)

(** The zero value of [Config]: what a composite literal leaves in the
    fields it does not name. *)
Definition Config_zero : Config :=
  {| Listen := ""; DiscoveryURL := ""; ClientID := ""; ClientSecret := "";
     RevocationEndpoint := ""; RedirectionURL := ""; Upstream := "";
     StoreURL := ""; EncryptionKey := ""; CookieDomain := "";
     CookieAccessName := ""; CookieRefreshName := ""; TLSCertificate := "";
     TLSPrivateKey := ""; TLSCaCertificate := "";
     TLSClientCertificate := ""; ForwardingUsername := "";
     ForwardingPassword := ""; SignInPage := ""; ForbiddenPage := "";
     UpstreamKeepalives := false; SkipTokenVerification := false;
     SkipUpstreamTLSVerify := false; SecureCookie := false;
     NoRedirects := false; EnableMetrics := false;
     EnableProxyProtocol := false; EnableForwarding := false;
     EnableRefreshTokens := false; EnableSecurityFilter := false;
     LogJSONFormat := false; LogRequests := false; Verbose := false;
     UpstreamTimeout := 0%Z; UpstreamKeepaliveTimeout := 0%Z;
     IdleDuration := 0%Z; Scopes := None; AddClaims := None;
     Hostnames := None; ForwardingDomains := None; Resources := None;
     TagData := None; MatchClaims := None; Headers := None;
     CrossOrigin := CORS.zero |}.

(** The composite literal [&Config{f1: v1, ...}]: the zero value with the
    named fields initialised, in the order written. *)
Definition literal (fields : list (Config -> Config)) : Config :=
  fold_left (fun c init => init c) fields Config_zero.

(** [newDefaultConfig] (lines 33-47). *)
Definition newDefaultConfig : Config :=
  literal [
    set_Listen "127.0.0.1:3000";
    set_TagData make_map;
    set_MatchClaims make_map;
    set_Headers make_map;
    set_UpstreamTimeout (10 * time.Second)%Z;
    set_UpstreamKeepaliveTimeout (10 * time.Second)%Z;
    set_CookieAccessName "kc-access";
    set_CookieRefreshName "kc-state";
    set_SecureCookie true;
    set_SkipUpstreamTLSVerify true;
    set_CrossOrigin CORS.zero
  ].

Section config_go.
Context `{!Platform, !Helpers, !Files}.

(** [Config.isValid] (lines 50-135).  [r] names the configuration as the
    statements that follow read it; it is read again after the one
    assignment. *)
Definition isValid : Config -> Config * outcome := call (
  r ← get_config;
  If (Listen r =? "")
    (Return (Some errNoListen));;
  If (negb (TLSCertificate r =? "") && (TLSPrivateKey r =? ""))
    (Return (Some errNoPrivateKey));;
  If (negb (TLSPrivateKey r =? "") && (TLSCertificate r =? ""))
    (Return (Some errNoCertificate));;
  If (negb (TLSCertificate r =? "") && negb (fileExists (TLSCertificate r)))
    (Return (Some (errCertificateMissing (TLSCertificate r))));;
  If (negb (TLSPrivateKey r =? "") && negb (fileExists (TLSPrivateKey r)))
    (Return (Some (errPrivateKeyMissing (TLSPrivateKey r))));;
  If (negb (TLSCaCertificate r =? "")
      && negb (fileExists (TLSCaCertificate r)))
    (Return (Some (errCaCertificateMissing (TLSCaCertificate r))));;
  If (negb (TLSClientCertificate r =? "")
      && negb (fileExists (TLSClientCertificate r)))
    (Return (Some (errClientCertificateMissing (TLSClientCertificate r))));;
  (if EnableForwarding r then
     If (ClientID r =? "")
       (Return (Some errNoClientID));;
     If (DiscoveryURL r =? "")
       (Return (Some errNoDiscoveryURL));;
     If (ForwardingUsername r =? "")
       (Return (Some errNoForwardingUsername));;
     If (ForwardingPassword r =? "")
       (Return (Some errNoForwardingPassword))
   else
     If (Upstream r =? "")
       (Return (Some errNoUpstream));;
     ReturnIfErr (url_Parse (Upstream r)) errUpstreamInvalid;;
     If (negb (SkipTokenVerification r)) (
       If (ClientID r =? "")
         (Return (Some errNoClientID));;
       If (DiscoveryURL r =? "")
         (Return (Some errNoDiscoveryURL));;
       If (strings.HasSuffix (RedirectionURL r) "/")
         (store set_RedirectionURL
            (strings.TrimSuffix (RedirectionURL r) "/"));;
       r ← get_config;
       If (EnableRefreshTokens r && (EncryptionKey r =? ""))
         (Return (Some errNoEncryptionKey));;
       If (EnableRefreshTokens r
           && (negb (String.length (EncryptionKey r) =? 16)%nat
               && negb (String.length (EncryptionKey r) =? 32)%nat))
         (Return (Some (errEncryptionKeyLength
                          (String.length (EncryptionKey r)))));;
       If (negb (NoRedirects r) && SecureCookie r
           && negb (strings.HasPrefix (RedirectionURL r) "https"))
         (Return (Some errInsecureRedirection));;
       If (negb (StoreURL r =? ""))
         (ReturnIfErr (url_Parse (StoreURL r)) errStoreURLInvalid)
     );;
     r ← get_config;
     for_range (elems (Resources r)) (fun resource =>
       ReturnIfErr (Resource_IsValid resource) errHelper);;
     for_range (range_order (entries (MatchClaims r))) (fun '(k, claim) =>
       ReturnIfErr (regexp_Compile claim) (fun _ => errClaimMatcher claim k))
  );;
  Return None).

(** [Config.hasCustomSignInPage] (lines 138-144). *)
Definition hasCustomSignInPage (r : Config) : bool :=
  if negb (SignInPage r =? "") then true else false.

(** [Config.hasCustomForbiddenPage] (lines 147-153). *)
Definition hasCustomForbiddenPage (r : Config) : bool :=
  if negb (ForbiddenPage r =? "") then true else false.

(** The statements [readOptions] is made of. *)

(** [if cx.String(name) != "" { config.f = cx.String(name) }]. *)
Definition string_if_nonempty (cx : cli.Context) (name : string)
    (set : string -> Config -> Config) : M unit :=
  If (negb (cli.String cx name =? "")) (store set (cli.String cx name)).

(** [if cx.IsSet(name) { config.f = cx.X(name) }], [X] one of [String],
    [Bool], [BoolT], [Duration], [StringSlice]. *)
Definition value_if_set {A} (cx : cli.Context) (name : string)
    (X : cli.Context -> string -> A) (set : A -> Config -> Config)
    : M unit :=
  If (cli.IsSet cx name) (store set (X cx name)).

(** [if cx.IsSet(name) { config.f = append(config.f,
    cx.StringSlice(name)...) }]. *)
Definition append_if_set (cx : cli.Context) (name : string)
    (f : Config -> slice string)
    (set : slice string -> Config -> Config) : M unit :=
  If (cli.IsSet cx name) (
    config ← get_config;
    store set (append (f config) (elems (cli.StringSlice cx name)))).

(** The same on a field of [config.CrossOrigin]. *)
Definition cors_append_if_set (cx : cli.Context) (name : string)
    (f : CORS -> slice string) (set : slice string -> CORS -> CORS)
    : M unit :=
  If (cli.IsSet cx name) (
    config ← get_config;
    store set_CrossOrigin
      (set (append (f (CrossOrigin config))
                   (elems (cli.StringSlice cx name)))
           (CrossOrigin config))).

Definition cors_value_if_set {A} (cx : cli.Context) (name : string)
    (X : cli.Context -> string -> A) (set : A -> CORS -> CORS)
    : M unit :=
  If (cli.IsSet cx name) (
    config ← get_config;
    store set_CrossOrigin (set (X cx name) (CrossOrigin config))).

(** [if cx.IsSet(name) { m, err := decodeKeyPairs(cx.StringSlice(name));
    if err != nil { return err }; mergeMaps(config.f, m) }]: the map
    behind [config.f] is updated in place. *)
Definition merge_if_set (cx : cli.Context) (name : string)
    (f : Config -> gomap) (set : gomap -> Config -> Config) : M unit :=
  If (cli.IsSet cx name) (
    match decodeKeyPairs (cli.StringSlice cx name) with
    | inl err => Return (Some (errHelper err))
    | inr m =>
        config ← get_config;
        match mergeMaps (f config) m with
        | None => Panic
        | Some merged => store set merged
        end
    end).

(** [readOptions] (lines 159-330). *)
Definition readOptions (cx : cli.Context) : Config -> Config * outcome :=
  call (
  string_if_nonempty cx "listen" set_Listen;;
  string_if_nonempty cx "client-secret" set_ClientSecret;;
  string_if_nonempty cx "client-id" set_ClientID;;
  string_if_nonempty cx "discovery-url" set_DiscoveryURL;;
  string_if_nonempty cx "upstream-url" set_Upstream;;
  string_if_nonempty cx "revocation-url" set_RevocationEndpoint;;
  value_if_set cx "upstream-keepalives" cli.Bool set_UpstreamKeepalives;;
  value_if_set cx "upstream-timeout" cli.Duration set_UpstreamTimeout;;
  value_if_set cx "upstream-keepalive-timeout" cli.Duration
    set_UpstreamKeepaliveTimeout;;
  value_if_set cx "idle-duration" cli.Duration set_IdleDuration;;
  value_if_set cx "skip-token-verification" cli.Bool
    set_SkipTokenVerification;;
  value_if_set cx "skip-upstream-tls-verify" cli.Bool
    set_SkipUpstreamTLSVerify;;
  value_if_set cx "encryption-key" cli.String set_EncryptionKey;;
  value_if_set cx "secure-cookie" cli.Bool set_SecureCookie;;
  value_if_set cx "cookie-access-name" cli.String set_CookieAccessName;;
  value_if_set cx "cookie-refresh-name" cli.String set_CookieRefreshName;;
  value_if_set cx "cookie-domain" cli.String set_CookieDomain;;
  append_if_set cx "add-claims" AddClaims set_AddClaims;;
  string_if_nonempty cx "store-url" set_StoreURL;;
  value_if_set cx "no-redirects" cli.Bool set_NoRedirects;;
  string_if_nonempty cx "redirection-url" set_RedirectionURL;;
  value_if_set cx "tls-cert" cli.String set_TLSCertificate;;
  value_if_set cx "tls-private-key" cli.String set_TLSPrivateKey;;
  value_if_set cx "tls-ca-certificate" cli.String set_TLSCaCertificate;;
  value_if_set cx "tls-client-certificate" cli.String
    set_TLSClientCertificate;;
  value_if_set cx "enable-metrics" cli.Bool set_EnableMetrics;;
  value_if_set cx "enable-proxy-protocol" cli.Bool set_EnableProxyProtocol;;
  value_if_set cx "enable-forwarding" cli.Bool set_EnableForwarding;;
  value_if_set cx "enable-refresh-tokens" cli.Bool set_EnableRefreshTokens;;
  value_if_set cx "forwarding-username" cli.String set_ForwardingUsername;;
  value_if_set cx "forwarding-password" cli.String set_ForwardingPassword;;
  append_if_set cx "forwarding-domains" ForwardingDomains
    set_ForwardingDomains;;
  value_if_set cx "signin-page" cli.String set_SignInPage;;
  value_if_set cx "forbidden-page" cli.String set_ForbiddenPage;;
  If (cli.IsSet cx "enable-security-filter")
    (store set_EnableSecurityFilter true);;
  value_if_set cx "json-logging" cli.Bool set_LogJSONFormat;;
  value_if_set cx "log-requests" cli.Bool set_LogRequests;;
  value_if_set cx "verbose" cli.Bool set_Verbose;;
  value_if_set cx "scope" cli.StringSlice set_Scopes;;
  append_if_set cx "hostname" Hostnames set_Hostnames;;
  cors_append_if_set cx "cors-origins" CORS.Origins set_CORS_Origins;;
  cors_append_if_set cx "cors-methods" CORS.Methods set_CORS_Methods;;
  cors_append_if_set cx "cors-headers" CORS.Headers set_CORS_Headers;;
  cors_append_if_set cx "cors-exposed-headers" CORS.ExposedHeaders
    set_CORS_ExposedHeaders;;
  cors_value_if_set cx "cors-max-age" cli.Duration set_CORS_MaxAge;;
  cors_value_if_set cx "cors-credentials" cli.BoolT set_CORS_Credentials;;
  merge_if_set cx "tag" MatchClaims set_MatchClaims;;
  merge_if_set cx "match-claims" MatchClaims set_MatchClaims;;
  merge_if_set cx "headers" MatchClaims set_MatchClaims;;
  If (cli.IsSet cx "resource") (
    for_range (elems (cli.StringSlice cx "resource")) (fun x =>
      match Resource_Parse x with
      | inl err => Return (Some (errInvalidResource x err))
      | inr resource =>
          config ← get_config;
          store set_Resources (append (Resources config) [resource])
      end));;
  Return None).

(** [readConfigFile] (lines 333-348). *)
Definition readConfigFile (filename : string) (config : Config)
    : Config * option error :=
  match ReadFile filename with
  | inl err => (config, Some (errHelper err))
  | inr content =>
      let '(config', err) :=
        if filepath.Ext filename =? "json"
        then json_Unmarshal content config
        else yaml_Unmarshal content config in
      (config', errHelper <$> err)
  end.
End config_go.

(** ** The flag table *)

Module flag.
(** The flags of the [cli] library that [getOptions] declares, each with
    the fields the table gives it; a field the table leaves out has its
    zero value (the empty string, the zero duration). *)
Inductive Flag : Type :=
  | StringFlag (Name Usage Value EnvVar : string)
  | StringSliceFlag (Name Usage : string)
  | BoolFlag (Name Usage : string)
  | BoolTFlag (Name Usage : string)
  | DurationFlag (Name Usage : string) (Value : time.Duration).

Definition Name (f : Flag) : string :=
  match f with
  | StringFlag n _ _ _ | StringSliceFlag n _ | BoolFlag n _
  | BoolTFlag n _ | DurationFlag n _ _ => n
  end.
End flag.

(** [getOptions] (lines 351-580).  [oauthURL] is a constant of the
    repository declared outside [config.go]. *)
Definition getOptions (oauthURL : string) : list flag.Flag :=
  let defaults := newDefaultConfig in
  let StringFlag := flag.StringFlag in
  let StringSliceFlag := flag.StringSliceFlag in
  let BoolFlag := flag.BoolFlag in
  let BoolTFlag := flag.BoolTFlag in
  let DurationFlag := flag.DurationFlag in
  [
    StringFlag "config"
      "the path to the configuration file for the keycloak proxy"
      "" "PROXY_CONFIG_FILE";
    StringFlag "listen"
      "the interface the service should be listening on"
      (Listen defaults) "PROXY_LISTEN";
    StringFlag "client-secret"
      "the client secret used to authenticate to the oauth server (access_type: confidential)"
      "" "PROXY_CLIENT_SECRET";
    StringFlag "client-id"
      "the client id used to authenticate to the oauth service"
      "" "PROXY_CLIENT_ID";
    StringFlag "discovery-url"
      "the discovery url to retrieve the openid configuration"
      "" "PROXY_DISCOVERY_URL";
    StringSliceFlag "scope"
      "a variable list of scopes requested when authenticating the user";
    BoolFlag "token-validate-only"
      "validate the token and roles only, no required implement oauth";
    DurationFlag "idle-duration"
      "the expiration of the access token cookie, if not used within this time its removed"
      0%Z;
    StringFlag "redirection-url"
      ("redirection url for the oauth callback url (" ++ oauthURL
         ++ " is added)")
      "" "PROXY_REDIRECTION_URL";
    StringFlag "revocation-url"
      "the url for the revocation endpoint to revoke refresh token"
      "/oauth2/revoke" "PROXY_REVOCATION_URL";
    StringFlag "store-url"
      "url for the storage subsystem, e.g redis://127.0.0.1:6379, file:///etc/tokens.file"
      "" "PROXY_STORE_URL";
    StringFlag "upstream-url"
      "the url for the upstream endpoint you wish to proxy to"
      (Upstream defaults) "PROXY_UPSTREAM_URL";
    BoolTFlag "upstream-keepalives"
      "enables or disables the keepalive connections for upstream endpoint";
    DurationFlag "upstream-timeout"
      "is the maximum amount of time a dial will wait for a connect to complete"
      (UpstreamTimeout defaults);
    DurationFlag "upstream-keepalive-timeout"
      "specifies the keep-alive period for an active network connection"
      (UpstreamKeepaliveTimeout defaults);
    BoolFlag "enable-refresh-tokens"
      "enables the handling of the refresh tokens";
    BoolTFlag "secure-cookie"
      "enforces the cookie to be secure, default to true";
    StringSliceFlag "cookie-domain"
      "a domain the access cookie is available to, defaults host header";
    StringFlag "cookie-access-name"
      "the name of the cookie use to hold the access token"
      (CookieAccessName defaults) "";
    StringFlag "cookie-refresh-name"
      "the name of the cookie used to hold the encrypted refresh token"
      (CookieRefreshName defaults) "";
    StringFlag "encryption-key"
      "the encryption key used to encrpytion the session state"
      "" "";
    BoolFlag "no-redirects"
      "do not have back redirects when no authentication is present, 401 them";
    StringSliceFlag "hostname"
      "a list of hostnames the service will respond to, defaults to all";
    BoolFlag "enable-metrics"
      "enable the prometheus metrics collector on /oauth/metrics";
    BoolFlag "enable-proxy-protocol"
      "whether to enable proxy protocol";
    BoolFlag "enable-forwarding"
      "enables the forwarding proxy mode, signing outbound request";
    StringFlag "forwarding-username"
      "the username to use when logging into the openid provider"
      "" "";
    StringFlag "forwarding-password"
      "the password to use when logging into the openid provider"
      "" "";
    StringSliceFlag "forwarding-domains"
      "a list of domains which should be signed; everything else is relayed unsigned";
    StringFlag "tls-cert"
      "the path to a certificate file used for TLS"
      "" "";
    StringFlag "tls-private-key"
      "the path to the private key for TLS support"
      "" "";
    StringFlag "tls-ca-certificate"
      "the path to the ca certificate used for mutual TLS"
      "" "";
    StringFlag "tls-client-certificate"
      "the path to the client certificate, used to outbound connections in reverse and forwarding proxy modes"
      "" "";
    BoolTFlag "skip-upstream-tls-verify"
      "whether to skip the verification of any upstream TLS (defaults to true)";
    StringSliceFlag "match-claims"
      "keypair values for matching access token claims e.g. aud=myapp, iss=http://example.*";
    StringSliceFlag "add-claims"
      "retrieve extra claims from the token and inject into headers, e.g given_name -> X-Auth-Given-Name";
    StringSliceFlag "resource"
      "a list of resources 'uri=/admin|methods=GET|roles=role1,role2'";
    StringSliceFlag "headers"
      "Add custom headers to the upstream request, key=value";
    StringFlag "signin-page"
      "a custom template displayed for signin"
      "" "";
    StringFlag "forbidden-page"
      "a custom template used for access forbidden"
      "" "";
    StringSliceFlag "tag"
      "keypair's passed to the templates at render,e.g title='My Page'";
    StringSliceFlag "cors-origins"
      "list of origins to add to the CORE origins control (Access-Control-Allow-Origin)";
    StringSliceFlag "cors-methods"
      "the method permitted in the access control (Access-Control-Allow-Methods)";
    StringSliceFlag "cors-headers"
      "a set of headers to add to the CORS access control (Access-Control-Allow-Headers)";
    StringSliceFlag "cors-exposes-headers"
      "set the expose cors headers access control (Access-Control-Expose-Headers)";
    DurationFlag "cors-max-age"
      "the max age applied to cors headers (Access-Control-Max-Age)"
      0%Z;
    BoolFlag "cors-credentials"
      "the credentials access control header (Access-Control-Allow-Credentials)";
    BoolFlag "enable-security-filter"
      "enables the security filter handler";
    BoolFlag "skip-token-verification"
      "TESTING ONLY; bypass token verification, only expiration and roles enforced";
    BoolTFlag "json-logging"
      "switch on json logging rather than text (defaults true)";
    BoolTFlag "log-requests"
      "switch on logging of all incoming requests (defaults true)";
    BoolFlag "verbose"
      "switch on debug / verbose logging"
  ].

(** ** The helpers, as the specification describes them *)

Module spec.
(** Modelled from the spec: [Resource.IsValid], defined outside
    [config.go], "fails when the URI pattern is empty". *)
Definition IsValid (r : Resource) : option string :=
  if Resource.URL r =? "" then Some "resource does not have url" else None.

(** The text before and after the first occurrence of [sep] in [s]. *)
Fixpoint cut (sep : ascii) (s : string) : option (string * string) :=
  match s with
  | EmptyString => None
  | String c s' =>
      if Ascii.eqb c sep then Some ("", s')
      else '(k, v) ← cut sep s'; Some (String c k, v)
  end.

(** The pieces of [s] between the occurrences of [sep]. *)
Fixpoint split (sep : ascii) (s : string) : list string :=
  match s with
  | EmptyString => [""]
  | String c s' =>
      if Ascii.eqb c sep then "" :: split sep s'
      else match split sep s' with
           | [] => [String c ""]
           | x :: xs => String c x :: xs
           end
  end.

(** Modelled from the spec: [decodeKeyPairs], defined outside
    [config.go]: "given a sequence of key=value strings, returns a
    mapping; fails with an invalid key-pair error on any entry lacking
    the = separator". *)
Fixpoint decode (list : list string) (kp : gmap string string)
    : string + gomap :=
  match list with
  | [] => inr (Some kp)
  | x :: rest =>
      match cut "=" x with
      | None => inl ("invalid key-pair " ++ x)
      | Some (k, v) => decode rest (<[k := v]> kp)
      end
  end.

(** Modelled from the spec: [decodeKeyPairs] starts from an empty
    mapping. *)
Definition decodeKeyPairs (list : slice string) : string + gomap :=
  decode (elems list) ∅.

(** Modelled from the spec: [mergeMaps], defined outside [config.go]:
    "writes every source entry into the destination, source entries
    overriding on key collision; returns the mutated destination".  A
    write into a nil map is a run-time panic. *)
Definition mergeMaps (dest source : gomap) : option gomap :=
  if bool_decide (entries source = ∅) then Some dest
  else match dest with
       | None => None
       | Some d => Some (Some (entries source ∪ d))
       end.

(** Modelled from the spec: [Resource.Parse], defined outside
    [config.go]: pipe-delimited [key=value] segments with the keys
    [uri], [methods], [roles] (comma-separated lists) and
    [white-listed]; "fails with a descriptive parse error on malformed
    segments or an unrecognized key". *)
Definition parse_segment (r : Resource) (segment : string)
    : string + Resource :=
  match cut "=" segment with
  | None => inl ("invalid resource keypair, should be (uri|roles|methods|white-listed)=comma_values")
  | Some (k, v) =>
      if k =? "uri" then
        inr {| Resource.URL := v; Resource.Methods := Resource.Methods r;
               Resource.Roles := Resource.Roles r;
               Resource.WhiteListed := Resource.WhiteListed r |}
      else if k =? "methods" then
        inr {| Resource.URL := Resource.URL r;
               Resource.Methods := Some (split "," v);
               Resource.Roles := Resource.Roles r;
               Resource.WhiteListed := Resource.WhiteListed r |}
      else if k =? "roles" then
        inr {| Resource.URL := Resource.URL r;
               Resource.Methods := Resource.Methods r;
               Resource.Roles := Some (split "," v);
               Resource.WhiteListed := Resource.WhiteListed r |}
      else if k =? "white-listed" then
        if v =? "true" then
          inr {| Resource.URL := Resource.URL r;
                 Resource.Methods := Resource.Methods r;
                 Resource.Roles := Resource.Roles r;
                 Resource.WhiteListed := true |}
        else if v =? "false" then
          inr {| Resource.URL := Resource.URL r;
                 Resource.Methods := Resource.Methods r;
                 Resource.Roles := Resource.Roles r;
                 Resource.WhiteListed := false |}
        else inl ("the value of whitelisted must be true|false")
      else inl ("invalid identifier, should be roles, uri or methods")
  end.

(** Modelled from the spec: the segments are read from left to right,
    the first failure ends the parse. *)
Fixpoint parse_segments (r : Resource) (segments : list string)
    : string + Resource :=
  match segments with
  | [] => inr r
  | x :: rest =>
      match parse_segment r x with
      | inl err => inl err
      | inr r' => parse_segments r' rest
      end
  end.

(** Modelled from the spec: [Resource.Parse] on the descriptor [x],
    starting from a resource with no URI, methods or roles. *)
Definition Parse (x : string) : string + Resource :=
  if x =? "" then inl "the resource has no options"
  else
    parse_segments
      {| Resource.URL := ""; Resource.Methods := None;
         Resource.Roles := None; Resource.WhiteListed := false |}
      (split "|" x).

(** The helpers on a host where exactly the paths in [files] exist. *)
Definition helpers (files : list string) : Helpers :=
  Build_Helpers (fun path => bool_decide (path ∈ files))
                decodeKeyPairs mergeMaps Parse IsValid.
End spec.

(** ** A platform and command lines to run the definitions on *)

Module sample.
(** Stands for [url.Parse] on the inputs used in this file: like it, it
    accepts an absolute URL and reports a missing scheme when the text
    starts with a colon. *)
Definition url_Parse (rawurl : string) : option string :=
  if String.prefix ":" rawurl then Some "missing protocol scheme" else None.

(** Stands for [regexp.Compile] on the inputs used in this file: like
    it, it reports a group that is opened and never closed. *)
Definition regexp_Compile (expr : string) : option string :=
  if expr =? "(" then Some "error parsing regexp: missing closing )"
  else None.

Definition platform : Platform :=
  Build_Platform url_Parse regexp_Compile
                 map_to_list (fun m => reflexivity (map_to_list m)).

(** A command line: the flags given on it, and the value the context
    holds for each flag that has one (given or default). *)
Record flags : Type := {
  given : list string;
  strings : list (string * string);
  bools : list (string * bool);
  durations : list (string * time.Duration);
  lists : list (string * list string);
}.

Definition value {A} (l : list (string * A)) (name : string) : option A :=
  (list_to_map l : gmap string A) !! name.

Definition context (f : flags) : cli.Context :=
  {| cli.IsSet name := bool_decide (name ∈ given f);
     cli.String name := default "" (value (strings f) name);
     cli.Bool name := default false (value (bools f) name);
     cli.BoolT name := default true (value (bools f) name);
     cli.Duration name := default 0%Z (value (durations f) name);
     cli.StringSlice name := value (lists f) name |}.

(** The values the flag table of [getOptions] gives the string flags
    that have a default. *)
Definition default_strings : list (string * string) :=
  [("listen", "127.0.0.1:3000"); ("revocation-url", "/oauth2/revoke");
   ("upstream-url", ""); ("cookie-access-name", "kc-access");
   ("cookie-refresh-name", "kc-state")].

Definition default_durations : list (string * time.Duration) :=
  [("upstream-timeout", (10 * time.Second)%Z);
   ("upstream-keepalive-timeout", (10 * time.Second)%Z)].

(** The context of a command line that gives the list-valued flags
    [lists] and leaves the others at their defaults. *)
Definition command_line (lists : list (string * list string))
    : cli.Context :=
  context {| given := lists.*1; strings := default_strings; bools := [];
             durations := default_durations; lists := lists |}.

(** [--tag "title=Sign in" --headers X-Forwarded-Proto=https]. *)
Definition tag_and_headers : cli.Context :=
  command_line [("tag", ["title=Sign in"]);
                ("headers", ["X-Forwarded-Proto=https"])].

(** [--resource "uri=/admin|methods=GET|roles=admin" --resource bad]. *)
Definition two_resources : cli.Context :=
  command_line [("resource", ["uri=/admin|methods=GET|roles=admin";
                              "bad"])].

Definition admin : Resource :=
  {| Resource.URL := "/admin"; Resource.Methods := Some ["GET"];
     Resource.Roles := Some ["admin"]; Resource.WhiteListed := false |}.

(** [--listen ""]: the flag is given, with the empty string. *)
Definition empty_listen : cli.Context :=
  context {| given := ["listen"];
             strings := [("listen", ""); ("revocation-url", "/oauth2/revoke");
                         ("cookie-access-name", "kc-access");
                         ("cookie-refresh-name", "kc-state")];
             bools := []; durations := default_durations; lists := [] |}.

(** The helpers on a host that has the two TLS files named below. *)
Definition helpers : Helpers :=
  spec.helpers ["/etc/tls/proxy.crt"; "/etc/tls/proxy.key"].

(** The defaults with an upstream. *)
Definition upstream_only : Config :=
  set_Upstream "http://127.0.0.1:8080" newDefaultConfig.

(** A reverse proxy: the defaults with the upstream, the client, the
    provider and the redirection URL. *)
Definition reverse_proxy : Config :=
  set_RedirectionURL "https://proxy.example.com/"
    (set_DiscoveryURL "https://idp.example.com/auth/realms/demo"
       (set_ClientID "proxy" upstream_only)).

(** The same with refresh tokens and a key of 15 characters. *)
Definition key15 : Config :=
  set_EncryptionKey "0123456789abcde"
    (set_EnableRefreshTokens true reverse_proxy).

(** The same with a certificate and no private key, and with both. *)
Definition certificate_only : Config :=
  set_TLSCertificate "/etc/tls/proxy.crt" reverse_proxy.

Definition certificate_and_key : Config :=
  set_TLSPrivateKey "/etc/tls/proxy.key" certificate_only.

(** A resource without a URI, and a claim matcher that does not
    compile. *)
Definition no_uri : Resource :=
  {| Resource.URL := ""; Resource.Methods := Some ["GET"];
     Resource.Roles := None; Resource.WhiteListed := false |}.

Definition bad_claims : gomap := Some {["iss" := "("]}.

(** The reverse proxy with them. *)
Definition reverse_proxy_bad_resource : Config :=
  set_Resources (Some [no_uri]) reverse_proxy.

(** A forwarding proxy with them. *)
Definition forwarding_proxy : Config :=
  set_MatchClaims bad_claims
    (set_Resources (Some [no_uri])
       (set_ForwardingPassword "secret"
          (set_ForwardingUsername "robot"
             (set_DiscoveryURL "https://idp.example.com/auth/realms/demo"
                (set_ClientID "proxy"
                   (set_EnableForwarding true newDefaultConfig)))))).
End sample.

(** ** The vocabulary of the properties *)

(** The first error a sequence of checks reports. *)
Fixpoint first_error {A} (check : A -> option error) (l : list A)
    : option error :=
  match l with
  | [] => None
  | x :: l' =>
      match check x with
      | Some e => Some e
      | None => first_error check l'
      end
  end.

(** A check stops the call with its error or lets it go on. *)
Definition stop_on (e : option error) : outcome + unit :=
  match e with
  | Some e => inl (Returns (Some e))
  | None => inr tt
  end.

(** The errors of invariant 2 on the certificate and private key pair. *)
Definition tls_pair_error (e : error) : Prop :=
  match e with
  | errNoPrivateKey | errNoCertificate
  | errCertificateMissing _ | errPrivateKeyMissing _ => True
  | _ => False
  end.

(** The errors of the checks [isValid] makes before it looks at the
    encryption key, with forwarding off and token verification on. *)
Definition before_key_check (e : error) : Prop :=
  match e with
  | errNoListen | errNoPrivateKey | errNoCertificate
  | errCertificateMissing _ | errPrivateKeyMissing _
  | errCaCertificateMissing _ | errClientCertificateMissing _
  | errNoUpstream | errUpstreamInvalid _
  | errNoClientID | errNoDiscoveryURL => True
  | _ => False
  end.

(** The errors of the encryption-key invariant. *)
Definition encryption_key_error (e : error) : Prop :=
  match e with
  | errNoEncryptionKey | errEncryptionKeyLength _ => True
  | _ => False
  end.

(** What validation may do to the configuration: nothing, or strip the
    trailing slash of the redirection URL. *)
Definition trimmed (c c' : Config) : Prop :=
  c' = c \/
  (strings.HasSuffix (RedirectionURL c) "/" = true /\
   c' = set_RedirectionURL (strings.TrimSuffix (RedirectionURL c) "/") c).

(** A slice or map that is not [nil]. *)
Definition allocated {A} (s : option A) : Prop := s <> None.

Section checks.
Context `{!Platform, !Helpers}.

(** The check of the loop over the resources, and of the loop over the
    claim matchers. *)
Definition resource_check (resource : Resource) : option error :=
  errHelper <$> Resource_IsValid resource.

Definition claim_check (kc : string * string) : option error :=
  (fun _ => errClaimMatcher kc.2 kc.1) <$> regexp_Compile kc.2.

(** The checks every configuration with forwarding off goes through
    first, passed with no TLS material configured. *)
Definition passes_common (c : Config) : Prop :=
  Listen c <> "" /\ TLSCertificate c = "" /\ TLSPrivateKey c = "" /\
  TLSCaCertificate c = "" /\ TLSClientCertificate c = "" /\
  EnableForwarding c = false /\
  Upstream c <> "" /\ url_Parse (Upstream c) = None.
End checks.

(** From a configuration that satisfies [P], the result of [m] (the
    configuration it leaves and how it ends) satisfies [Q]. *)
Definition triple {A} (P : Config -> Prop) (m : M A)
    (Q : Config * (outcome + A) -> Prop) : Prop :=
  forall c, P c -> Q (m c).

(** [s] never stops the call, and takes [P] to [R]. *)
Definition advances (P R : Config -> Prop) (s : M unit) : Prop :=
  triple P s (fun r => r.2 = inr tt /\ R r.1).

(** [m] keeps [P], however it ends. *)
Definition invariant {A} (P : Config -> Prop) (m : M A) : Prop :=
  triple P m (fun r => P r.1).

(** How a key-pair option can end the call: a decoding error handed on, or
    a panic of the merge. *)
Definition key_pair_stop (o : outcome) : Prop :=
  o = Panics \/ exists msg, o = Returns (Some (errHelper msg)).

(** What [readOptions] does to the field [F] of a scalar option. *)
Definition overwritten_if_nonempty (cx : cli.Context) (name : string)
    (F : Config -> string) (c c' : Config) : Prop :=
  F c' = if negb (cli.String cx name =? "") then cli.String cx name else F c.

Definition overwritten_if_set {A} (cx : cli.Context) (name : string)
    (X : cli.Context -> string -> A) (F : Config -> A) (c c' : Config)
    : Prop :=
  F c' = if cli.IsSet cx name then X cx name else F c.

(** ** The vocabulary of the further properties *)

(** The platform as another [range] statement finds it: the same
    library and host, with an order of visit of its own. *)
Definition reordered (P : Platform)
    (order : gmap string string -> list (string * string))
    (Hperm : forall m, order m ≡ₚ map_to_list m) : Platform :=
  {| url_Parse := @url_Parse P;
     regexp_Compile := @regexp_Compile P;
     range_order := order;
     range_order_perm := Hperm |}.

(** Two outcomes that are the same but for the claim matcher a
    claim-matcher error names. *)
Definition same_verdict (o o' : outcome) : Prop :=
  o = o' \/
  exists claim k claim' k',
    o = Returns (Some (errClaimMatcher claim k)) /\
    o' = Returns (Some (errClaimMatcher claim' k')).

Section validity.
Context `{!Platform, !Helpers}.

(** The certificate and the private key come together, and every TLS
    path that is set names a file that exists. *)
Definition tls_ok (c : Config) : Prop :=
  (TLSCertificate c = "" <-> TLSPrivateKey c = "") /\
  (TLSCertificate c <> "" -> fileExists (TLSCertificate c) = true) /\
  (TLSPrivateKey c <> "" -> fileExists (TLSPrivateKey c) = true) /\
  (TLSCaCertificate c <> "" -> fileExists (TLSCaCertificate c) = true) /\
  (TLSClientCertificate c <> "" ->
   fileExists (TLSClientCertificate c) = true).

(** What the forwarding mode needs. *)
Definition forwarding_ok (c : Config) : Prop :=
  ClientID c <> "" /\ DiscoveryURL c <> "" /\
  ForwardingUsername c <> "" /\ ForwardingPassword c <> "".

(** The encryption key is there, at one of the two lengths, when refresh
    tokens are on. *)
Definition key_ok (c : Config) : Prop :=
  EnableRefreshTokens c = true ->
  String.length (EncryptionKey c) = 16 \/
  String.length (EncryptionKey c) = 32.

(** What a reverse proxy that verifies tokens needs. *)
Definition verification_ok (c : Config) : Prop :=
  ClientID c <> "" /\ DiscoveryURL c <> "" /\ key_ok c /\
  (NoRedirects c = false -> SecureCookie c = true ->
   strings.HasPrefix (RedirectionURL c) "https" = true) /\
  (StoreURL c <> "" -> url_Parse (StoreURL c) = None).

(** What the reverse proxy needs. *)
Definition proxy_ok (c : Config) : Prop :=
  Upstream c <> "" /\ url_Parse (Upstream c) = None /\
  (SkipTokenVerification c = false -> verification_ok c) /\
  (forall resource,
     resource ∈ elems (Resources c) -> Resource_IsValid resource = None) /\
  (forall k claim,
     entries (MatchClaims c) !! k = Some claim ->
     regexp_Compile claim = None).

(** The configurations that are in order. *)
Definition valid (c : Config) : Prop :=
  Listen c <> "" /\ tls_ok c /\
  if EnableForwarding c then forwarding_ok c else proxy_ok c.

(** The configurations on which [isValid] gets as far as the
    redirection URL: a reverse proxy that verifies tokens, with every
    check before that passed. *)
Definition reaches_trim (c : Config) : Prop :=
  Listen c <> "" /\ tls_ok c /\ EnableForwarding c = false /\
  Upstream c <> "" /\ url_Parse (Upstream c) = None /\
  SkipTokenVerification c = false /\
  ClientID c <> "" /\ DiscoveryURL c <> "".

(** Two configurations that [isValid] cannot tell apart. *)
Definition validated_alike (c c' : Config) : Prop :=
  Listen c' = Listen c /\
  TLSCertificate c' = TLSCertificate c /\
  TLSPrivateKey c' = TLSPrivateKey c /\
  TLSCaCertificate c' = TLSCaCertificate c /\
  TLSClientCertificate c' = TLSClientCertificate c /\
  EnableForwarding c' = EnableForwarding c /\
  ClientID c' = ClientID c /\
  DiscoveryURL c' = DiscoveryURL c /\
  ForwardingUsername c' = ForwardingUsername c /\
  ForwardingPassword c' = ForwardingPassword c /\
  Upstream c' = Upstream c /\
  SkipTokenVerification c' = SkipTokenVerification c /\
  EnableRefreshTokens c' = EnableRefreshTokens c /\
  EncryptionKey c' = EncryptionKey c /\
  NoRedirects c' = NoRedirects c /\
  SecureCookie c' = SecureCookie c /\
  strings.HasPrefix (RedirectionURL c') "https" =
    strings.HasPrefix (RedirectionURL c) "https" /\
  StoreURL c' = StoreURL c /\
  Resources c' = Resources c /\
  MatchClaims c' = MatchClaims c.
End validity.

(** What [readOptions] does to the field [F] of a list-valued option. *)
Definition appended_if_set (cx : cli.Context) (name : string)
    (F : Config -> slice string) (c c' : Config) : Prop :=
  F c' = if cli.IsSet cx name
         then append (F c) (elems (cli.StringSlice cx name))
         else F c.

(** One of the three key-pair options is on the command line. *)
Definition key_pairs_given (cx : cli.Context) : bool :=
  cli.IsSet cx "tag" || cli.IsSet cx "match-claims" || cli.IsSet cx "headers".

(** The value the table gives the string flag [name], if it declares
    one: what [cx.String] answers for it when neither the command line
    nor the environment gives the flag. *)
Definition string_default (flags : list flag.Flag) (name : string)
    : option string :=
  match find (fun f => flag.Name f =? name) flags with
  | Some (flag.StringFlag _ _ v _) => Some v
  | _ => None
  end.

(** The contexts of a command line that gives no flag: no option is
    set, and each string flag of the table answers with its value.
    What [cx.String] answers under the name of a flag of another kind,
    or of no flag, is left open. *)
Definition nothing_given (flags : list flag.Flag) (cx : cli.Context)
    : Prop :=
  (forall name, cli.IsSet cx name = false) /\
  (forall name v, string_default flags name = Some v ->
                  cli.String cx name = v).

(** A look-up in the context: [cx.IsSet(name)], [cx.String(name)],
    [cx.Bool(name)], [cx.BoolT(name)], [cx.Duration(name)],
    [cx.StringSlice(name)]. *)
Inductive lookup : Type :=
  | is_set (name : string)
  | string_of (name : string)
  | bool_of (name : string)
  | boolt_of (name : string)
  | duration_of (name : string)
  | string_slice_of (name : string).

Definition option_name (l : lookup) : string :=
  match l with
  | is_set n | string_of n | bool_of n | boolt_of n | duration_of n
  | string_slice_of n => n
  end.

(** Two contexts that answer the look-up alike. *)
Definition same_answer (cx cx' : cli.Context) (l : lookup) : Prop :=
  match l with
  | is_set n => cli.IsSet cx n = cli.IsSet cx' n
  | string_of n => cli.String cx n = cli.String cx' n
  | bool_of n => cli.Bool cx n = cli.Bool cx' n
  | boolt_of n => cli.BoolT cx n = cli.BoolT cx' n
  | duration_of n => cli.Duration cx n = cli.Duration cx' n
  | string_slice_of n => cli.StringSlice cx n = cli.StringSlice cx' n
  end.

(** The look-ups [readOptions] makes (lines 159-330), in the order it
    first makes them. *)
Definition lookups : list lookup :=
  [ string_of "listen";
    string_of "client-secret";
    string_of "client-id";
    string_of "discovery-url";
    string_of "upstream-url";
    string_of "revocation-url";
    is_set "upstream-keepalives";
    bool_of "upstream-keepalives";
    is_set "upstream-timeout";
    duration_of "upstream-timeout";
    is_set "upstream-keepalive-timeout";
    duration_of "upstream-keepalive-timeout";
    is_set "idle-duration";
    duration_of "idle-duration";
    is_set "skip-token-verification";
    bool_of "skip-token-verification";
    is_set "skip-upstream-tls-verify";
    bool_of "skip-upstream-tls-verify";
    is_set "encryption-key";
    string_of "encryption-key";
    is_set "secure-cookie";
    bool_of "secure-cookie";
    is_set "cookie-access-name";
    string_of "cookie-access-name";
    is_set "cookie-refresh-name";
    string_of "cookie-refresh-name";
    is_set "cookie-domain";
    string_of "cookie-domain";
    is_set "add-claims";
    string_slice_of "add-claims";
    string_of "store-url";
    is_set "no-redirects";
    bool_of "no-redirects";
    string_of "redirection-url";
    is_set "tls-cert";
    string_of "tls-cert";
    is_set "tls-private-key";
    string_of "tls-private-key";
    is_set "tls-ca-certificate";
    string_of "tls-ca-certificate";
    is_set "tls-client-certificate";
    string_of "tls-client-certificate";
    is_set "enable-metrics";
    bool_of "enable-metrics";
    is_set "enable-proxy-protocol";
    bool_of "enable-proxy-protocol";
    is_set "enable-forwarding";
    bool_of "enable-forwarding";
    is_set "enable-refresh-tokens";
    bool_of "enable-refresh-tokens";
    is_set "forwarding-username";
    string_of "forwarding-username";
    is_set "forwarding-password";
    string_of "forwarding-password";
    is_set "forwarding-domains";
    string_slice_of "forwarding-domains";
    is_set "signin-page";
    string_of "signin-page";
    is_set "forbidden-page";
    string_of "forbidden-page";
    is_set "enable-security-filter";
    is_set "json-logging";
    bool_of "json-logging";
    is_set "log-requests";
    bool_of "log-requests";
    is_set "verbose";
    bool_of "verbose";
    is_set "scope";
    string_slice_of "scope";
    is_set "hostname";
    string_slice_of "hostname";
    is_set "cors-origins";
    string_slice_of "cors-origins";
    is_set "cors-methods";
    string_slice_of "cors-methods";
    is_set "cors-headers";
    string_slice_of "cors-headers";
    is_set "cors-exposed-headers";
    string_slice_of "cors-exposed-headers";
    is_set "cors-max-age";
    duration_of "cors-max-age";
    is_set "cors-credentials";
    boolt_of "cors-credentials";
    is_set "tag";
    string_slice_of "tag";
    is_set "match-claims";
    string_slice_of "match-claims";
    is_set "headers";
    string_slice_of "headers";
    is_set "resource";
    string_slice_of "resource" ].

(** The flag answers the look-up with a value of its own kind: any flag
    can be asked whether it is set. *)
Definition of_kind (f : flag.Flag) (l : lookup) : bool :=
  match f, l with
  | _, is_set _ => true
  | flag.StringFlag _ _ _ _, string_of _ => true
  | flag.StringSliceFlag _ _, string_slice_of _ => true
  | flag.BoolFlag _ _, bool_of _ => true
  | flag.BoolTFlag _ _, boolt_of _ => true
  | flag.DurationFlag _ _ _, duration_of _ => true
  | _, _ => false
  end.

(** The table declares a flag of that name; [readOptions] looks the
    name up. *)
Definition declared (flags : list flag.Flag) (name : string) : bool :=
  existsb (fun f => flag.Name f =? name) flags.

Definition looked_up (name : string) : bool :=
  existsb (fun l => option_name l =? name) lookups.

(** The options [readOptions] looks up that the table does not declare,
    the flags of the table it never looks up, and the look-ups of a
    value of another kind than the flag declared under the name. *)
Definition undeclared (flags : list flag.Flag) : list string :=
  remove_dups
    (List.filter (fun n => negb (declared flags n))
                 (option_name <$> lookups)).

Definition unread (flags : list flag.Flag) : list string :=
  List.filter (fun n => negb (looked_up n)) (flag.Name <$> flags).

Definition of_another_kind (flags : list flag.Flag) : list lookup :=
  List.filter
    (fun l => match find (fun f => flag.Name f =? option_name l) flags with
              | Some f => negb (of_kind f l)
              | None => false
              end)
    lookups.

(** ** Further configurations and command lines *)

Module given.
(** What [cx.String] answers under the name of a flag that is not
    given: the text of the value of the flag, whatever its kind.  The
    durations of the table are whole seconds. *)
Definition text (f : flag.Flag) : string :=
  match f with
  | flag.StringFlag _ _ v _ => v
  | flag.StringSliceFlag _ _ => "[]"
  | flag.BoolFlag _ _ => "false"
  | flag.BoolTFlag _ _ => "true"
  | flag.DurationFlag _ _ d => pretty (d / time.Second)%Z ++ "s"
  end.

(** The context of a command line that gives no flag, with nothing in
    the environment: no option is set, [cx.String] answers the text of
    the value of the flag of that name, and the empty string when there
    is none; the other accessors, which [readOptions] calls for options
    that are set only, answer the zero value. *)
Definition nothing (flags : list flag.Flag) : cli.Context :=
  {| cli.IsSet _ := false;
     cli.String name :=
       match find (fun f => flag.Name f =? name) flags with
       | Some f => text f
       | None => ""
       end;
     cli.Bool _ := false;
     cli.BoolT _ := false;
     cli.Duration _ := 0%Z;
     cli.StringSlice _ := None |}.

(** [--resource "uri=/admin|methods=GET|roles=admin"]. *)
Definition one_resource : cli.Context :=
  sample.command_line [("resource", ["uri=/admin|methods=GET|roles=admin"])].

(** [--cors-exposes-headers X-Request-Id], the flag as the table spells
    it. *)
Definition exposes_headers : cli.Context :=
  sample.command_line [("cors-exposes-headers", ["X-Request-Id"])].

(** The reverse proxy of [sample] with a client secret, other cookie
    names and another path in its redirection URL. *)
Definition other_proxy : Config :=
  set_ClientSecret "s3cret"
    (set_CookieAccessName "access"
       (set_RedirectionURL "https://proxy.example.com/oauth/"
          sample.reverse_proxy)).

(** An order of visit: the entries of the map from the last to the
    first. *)
Definition backwards (m : gmap string string) : list (string * string) :=
  reverse (map_to_list m).
End given.

(** ** Reading the statements *)

Ltac fields :=
  cbn [
      Config_zero negb andb String.eqb Ascii.eqb Bool.eqb
      Listen DiscoveryURL ClientID ClientSecret RevocationEndpoint
      RedirectionURL Upstream StoreURL EncryptionKey CookieDomain
      CookieAccessName CookieRefreshName TLSCertificate TLSPrivateKey
      TLSCaCertificate TLSClientCertificate ForwardingUsername
      ForwardingPassword SignInPage ForbiddenPage UpstreamKeepalives
      SkipTokenVerification SkipUpstreamTLSVerify SecureCookie NoRedirects
      EnableMetrics EnableProxyProtocol EnableForwarding
      EnableRefreshTokens EnableSecurityFilter LogJSONFormat LogRequests
      Verbose UpstreamTimeout UpstreamKeepaliveTimeout IdleDuration Scopes
      AddClaims Hostnames ForwardingDomains Resources TagData MatchClaims
      Headers CrossOrigin
      set_Listen set_DiscoveryURL set_ClientID set_ClientSecret
      set_RevocationEndpoint set_RedirectionURL set_Upstream set_StoreURL
      set_EncryptionKey set_CookieDomain set_CookieAccessName
      set_CookieRefreshName set_TLSCertificate set_TLSPrivateKey
      set_TLSCaCertificate set_TLSClientCertificate set_ForwardingUsername
      set_ForwardingPassword set_SignInPage set_ForbiddenPage
      set_UpstreamKeepalives set_SkipTokenVerification
      set_SkipUpstreamTLSVerify set_SecureCookie set_NoRedirects
      set_EnableMetrics set_EnableProxyProtocol set_EnableForwarding
      set_EnableRefreshTokens set_EnableSecurityFilter set_LogJSONFormat
      set_LogRequests set_Verbose set_UpstreamTimeout
      set_UpstreamKeepaliveTimeout set_IdleDuration set_Scopes
      set_AddClaims set_Hostnames set_ForwardingDomains set_Resources
      set_TagData set_MatchClaims set_Headers set_CrossOrigin
  ] in *.

Lemma for_range_checks {A} (body : A -> M unit) (check : A -> option error) :
  (forall x c, body x c = (c, stop_on (check x))) ->
  forall l c, for_range l body c = (c, stop_on (first_error check l)).
Proof.
  intros Hbody l c. induction l as [|x l IH]; [reflexivity|].
  simpl. unfold mbind, M_bind. rewrite Hbody.
  destruct (check x); simpl; [reflexivity|apply IH].
Qed.

Lemma first_error_None {A} (check : A -> option error) l :
  first_error check l = None -> forall x, x ∈ l -> check x = None.
Proof.
  induction l as [|y l IH]; intros Hnone x Hin.
  - inversion Hin.
  - simpl in Hnone. destruct (check y) eqn:Hy; [discriminate|].
    apply elem_of_cons in Hin as [->|Hin]; [exact Hy|exact (IH Hnone x Hin)].
Qed.

Lemma ReturnIfErr_Some e f c :
  ReturnIfErr (Some e) f c = (c, inl (Returns (Some (f e)))).
Proof. reflexivity. Qed.

Lemma ReturnIfErr_None f c : ReturnIfErr None f c = (c, inr tt).
Proof. reflexivity. Qed.

Lemma set_RedirectionURL_same c : set_RedirectionURL (RedirectionURL c) c = c.
Proof. destruct c; reflexivity. Qed.

Section validator.
Context `{!Platform, !Helpers}.

Lemma resources_loop l c :
  for_range l
    (fun resource => ReturnIfErr (Resource_IsValid resource) errHelper) c
  = (c, stop_on (first_error resource_check l)).
Proof.
  apply for_range_checks. intros x c'. unfold resource_check.
  destruct (Resource_IsValid x); reflexivity.
Qed.

Lemma claims_loop l c :
  for_range l (fun '(k, claim) =>
    ReturnIfErr (regexp_Compile claim) (fun _ => errClaimMatcher claim k)) c
  = (c, stop_on (first_error claim_check l)).
Proof.
  apply for_range_checks. intros [k claim] c'. unfold claim_check. simpl.
  destruct (regexp_Compile claim); reflexivity.
Qed.

Lemma first_error_Some {A} (check : A -> option error) l e :
  first_error check l = Some e -> exists x, x ∈ l /\ check x = Some e.
Proof.
  induction l as [|y l IH]; simpl; [discriminate|].
  destruct (check y) eqn:Hy.
  - intros [= ->]. exists y. split; [apply list_elem_of_here|exact Hy].
  - intros (x & Hin & Hx)%IH. exists x.
    split; [apply list_elem_of_further, Hin|exact Hx].
Qed.

Lemma resource_error l e :
  first_error resource_check l = Some e -> exists msg, e = errHelper msg.
Proof.
  intros (x & _ & Hx)%first_error_Some. unfold resource_check in Hx.
  destruct (Resource_IsValid x) as [msg|]; [|discriminate].
  injection Hx as <-. exists msg. reflexivity.
Qed.

Lemma claim_error l e :
  first_error claim_check l = Some e ->
  exists claim k, e = errClaimMatcher claim k.
Proof.
  intros ([k claim] & _ & Hx)%first_error_Some. unfold claim_check in Hx.
  simpl in Hx. destruct (regexp_Compile claim); [|discriminate].
  injection Hx as <-. exists claim, k. reflexivity.
Qed.

Lemma range_order_elem (m : gmap string string) k claim :
  (k, claim) ∈ range_order m <-> m !! k = Some claim.
Proof. rewrite (range_order_perm m). apply elem_of_map_to_list. Qed.

Lemma range_order_empty : range_order (∅ : gmap string string) = [].
Proof.
  apply Permutation_nil_r. rewrite (range_order_perm ∅).
  rewrite map_to_list_empty. reflexivity.
Qed.
End validator.

(** Stripping a trailing slash keeps an [https] prefix. *)
Lemma HasPrefix_https_TrimSuffix (r : string) :
  strings.HasPrefix r "https" = true ->
  strings.HasPrefix (strings.TrimSuffix r "/") "https" = true.
Proof.
  intros Hprefix. unfold strings.TrimSuffix.
  destruct (strings.HasSuffix r "/") eqn:Hsuffix; [|exact Hprefix].
  unfold strings.HasPrefix in *.
  do 5 (destruct r as [|? r]; cbn [String.prefix] in Hprefix;
        [discriminate|];
        match type of Hprefix with
        | (if ?b then _ else _) = true => destruct b as [<-|]; [|discriminate]
        end).
  destruct r as [|a r]; [discriminate|].
  cbn. repeat (destruct (ascii_dec _ _); [|congruence]).
  destruct (String.length r); reflexivity.
Qed.

(** Run [isValid] one statement at a time, splitting on each test. *)
Ltac unfold_isValid :=
  cbv beta iota delta
    [isValid call mbind M_bind mret M_ret get_config store Return If].

Ltac step :=
  match goal with
  | |- context [for_range _ (fun resource =>
                   ReturnIfErr (Resource_IsValid resource) errHelper) _] =>
      rewrite resources_loop
  | |- context [for_range _ _ _] => rewrite claims_loop
  | |- context [stop_on ?e] => destruct e eqn:?; cbn [stop_on]
  | |- context [ReturnIfErr ?e _ _] =>
      destruct e eqn:?; [rewrite ReturnIfErr_Some|rewrite ReturnIfErr_None]
  | |- context [if ?b then _ else _] => destruct b eqn:?
  end; cbv beta iota; fields.

Ltac run_isValid := unfold_isValid; fields; repeat step.

(** Run the statements whose tests are decided. *)
Ltac evaluate :=
  repeat (progress (cbv beta iota delta [mret M_ret]; fields;
                    cbn [ReturnIfErr elems entries make_map for_range])).

(** Name the error a loop of [isValid] stopped on. *)
Ltac loop_error :=
  match goal with
  | H : first_error resource_check _ = Some _ |- _ =>
      apply resource_error in H as [? ->]
  | H : first_error claim_check _ = Some _ |- _ =>
      apply claim_error in H as (? & ? & ->)
  end.

(** ** The validator *)

Section isValid_properties.
Context `{!Platform, !Helpers}.

(** C8.  Validation leaves the configuration as it is, or as it is but
    for the trailing slash stripped from the redirection URL; it always
    returns (it never panics), and when it accepts a configuration that
    has forwarding off and token verification on, the redirection URL
    has been stripped of its trailing slash. *)
Theorem isValid_frame (c : Config) :
  trimmed c (isValid c).1 /\
  (exists err, (isValid c).2 = Returns err) /\
  ((isValid c).2 = Returns None ->
   EnableForwarding c = false -> SkipTokenVerification c = false ->
   (isValid c).1 =
     set_RedirectionURL (strings.TrimSuffix (RedirectionURL c) "/") c).
Proof.
  split; [|split].
  - run_isValid;
      solve [ left; reflexivity
            | right; split; [assumption|reflexivity] ].
  - run_isValid; eexists; reflexivity.
  - intros Hok Hfwd Hskip. revert Hok.
    unfold_isValid; fields; rewrite Hfwd, Hskip; cbn [negb].
    repeat step; cbn [snd fst]; try discriminate; intros _.
    all: unfold strings.TrimSuffix;
      match goal with
      | H : strings.HasSuffix _ _ = _ |- _ => rewrite H
      end; solve [reflexivity | symmetry; apply set_RedirectionURL_same].
Qed.

(** C10.  With exactly one of the certificate and the private key set,
    validation returns an error: the one about the missing counterpart,
    unless the listen address is missing too.  With neither set, or with
    both set to paths that exist, no error it returns is an error of the
    certificate and key pair. *)
Theorem isValid_tls_pair (c : Config) :
  (TLSCertificate c <> "" -> TLSPrivateKey c = "" ->
   (isValid c).2 =
     Returns (Some (if Listen c =? "" then errNoListen
                    else errNoPrivateKey))) /\
  (TLSCertificate c = "" -> TLSPrivateKey c <> "" ->
   (isValid c).2 =
     Returns (Some (if Listen c =? "" then errNoListen
                    else errNoCertificate))) /\
  ((TLSCertificate c = "" /\ TLSPrivateKey c = "") \/
   (TLSCertificate c <> "" /\ TLSPrivateKey c <> "" /\
    fileExists (TLSCertificate c) = true /\
    fileExists (TLSPrivateKey c) = true) ->
   forall e, (isValid c).2 = Returns (Some e) -> ~ tls_pair_error e).
Proof.
  split; [|split].
  - intros Hcert%String.eqb_neq Hkey.
    unfold_isValid; fields. rewrite Hcert, Hkey. cbn [negb andb String.eqb].
    destruct (Listen c =? ""); reflexivity.
  - intros Hcert Hkey%String.eqb_neq.
    unfold_isValid; fields. rewrite Hcert, Hkey.
    cbn [negb andb String.eqb].
    destruct (Listen c =? ""); reflexivity.
  - intros [[Hcert Hkey]|(Hcert%String.eqb_neq & Hkey%String.eqb_neq
                           & Hcert_file & Hkey_file)];
      unfold_isValid; fields.
    + rewrite Hcert, Hkey. cbn [negb andb String.eqb].
      repeat step; cbn [snd]; try loop_error;
        intros ? [= <-]; exact id.
    + rewrite Hcert, Hkey, Hcert_file, Hkey_file. cbn [negb andb].
      repeat step; cbn [snd]; try loop_error;
        intros ? [= <-]; exact id.
Qed.

(** C2, as the code has it.  With forwarding off, a resource that fails
    its validity contract or a claim matcher that does not compile makes
    validation return an error.  With forwarding on, validation looks at
    neither: its result does not depend on the resources or on the claim
    matchers. *)
Theorem isValid_resources_and_claims (c : Config) :
  (EnableForwarding c = false ->
   (exists resource,
      resource ∈ elems (Resources c) /\
      Resource_IsValid resource <> None) \/
   (exists k claim,
      entries (MatchClaims c) !! k = Some claim /\
      regexp_Compile claim <> None) ->
   exists e, (isValid c).2 = Returns (Some e)) /\
  (EnableForwarding c = true ->
   forall resources claims,
     (isValid (set_MatchClaims claims (set_Resources resources c))).2 =
     (isValid c).2).
Proof.
  split.
  - intros Hfwd Hbad.
    unfold_isValid; fields. rewrite Hfwd.
    repeat step; cbn [snd]; try (eexists; reflexivity).
    all: exfalso; destruct Hbad as [(resource & Hin & Hinvalid)
                                   |(k & claim & Hin & Hinvalid)].
    all: try (match goal with
              | H : first_error resource_check _ = None |- _ =>
                  apply (first_error_None _ _ H) in Hin;
                  unfold resource_check in Hin;
                  destruct (Resource_IsValid resource);
                  [discriminate|congruence]
              end).
    all: apply range_order_elem in Hin;
      match goal with
      | H : first_error claim_check _ = None |- _ =>
          apply (first_error_None _ _ H) in Hin;
          unfold claim_check in Hin; simpl in Hin;
          destruct (regexp_Compile claim); [discriminate|congruence]
      end.
  - intros Hfwd resources claims.
    unfold_isValid; fields. rewrite Hfwd.
    repeat step; reflexivity.
Qed.

Ltac use_common Hcommon :=
  destruct Hcommon as (HL%String.eqb_neq & Hc & Hk & Hca & Hcl & Hfwd
                       & Hup%String.eqb_neq & Hparse).

Lemma isValid_no_client_id c :
  passes_common c -> SkipTokenVerification c = false -> ClientID c = "" ->
  isValid c = (c, Returns (Some errNoClientID)).
Proof.
  intros Hcommon Hskip Hid. use_common Hcommon.
  unfold_isValid; fields.
  rewrite HL, Hc, Hk, Hca, Hcl, Hfwd, Hup, Hparse, Hskip, Hid.
  evaluate. reflexivity.
Qed.

Lemma isValid_accepts_unverified c :
  passes_common c -> SkipTokenVerification c = true ->
  elems (Resources c) = [] -> entries (MatchClaims c) = ∅ ->
  isValid c = (c, Returns None).
Proof.
  intros Hcommon Hskip Hres Hclaims. use_common Hcommon.
  unfold_isValid; fields.
  rewrite HL, Hc, Hk, Hca, Hcl, Hfwd, Hup, Hparse, Hskip.
  evaluate. rewrite Hres, Hclaims. evaluate.
  rewrite range_order_empty. reflexivity.
Qed.

Lemma isValid_accepts_verified c :
  passes_common c -> SkipTokenVerification c = false ->
  ClientID c <> "" -> DiscoveryURL c <> "" ->
  EnableRefreshTokens c = false ->
  strings.HasPrefix (RedirectionURL c) "https" = true ->
  StoreURL c = "" ->
  elems (Resources c) = [] -> entries (MatchClaims c) = ∅ ->
  (isValid c).2 = Returns None.
Proof.
  intros Hcommon Hskip Hid%String.eqb_neq Hd%String.eqb_neq Hrefresh Hr
    Hstore Hres Hclaims.
  use_common Hcommon.
  assert (Htrim := HasPrefix_https_TrimSuffix _ Hr).
  unfold_isValid; fields.
  rewrite HL, Hc, Hk, Hca, Hcl, Hfwd, Hup, Hparse, Hskip, Hid, Hd.
  evaluate.
  destruct (strings.HasSuffix (RedirectionURL c) "/"); evaluate;
    repeat (progress (rewrite ?Hrefresh, ?Htrim, ?Hr, ?Hstore, ?Hres,
                        ?Hclaims, ?andb_false_r, ?range_order_empty);
            evaluate);
    reflexivity.
Qed.

(** C3, as the code has it.  The default configuration with [Upstream]
    set to a non-empty URL that parses is refused for its missing client
    id, and left as it was.  It is accepted once token verification is
    skipped, or once the client id and the discovery URL are set and the
    redirection URL starts with [https]. *)
Theorem isValid_default_with_upstream (u : string) :
  u <> "" -> url_Parse u = None ->
  let c := set_Upstream u newDefaultConfig in
  EnableForwarding c = false /\
  isValid c = (c, Returns (Some errNoClientID)) /\
  isValid (set_SkipTokenVerification true c) =
    (set_SkipTokenVerification true c, Returns None) /\
  (forall id d r,
     id <> "" -> d <> "" -> strings.HasPrefix r "https" = true ->
     (isValid (set_RedirectionURL r
                 (set_DiscoveryURL d (set_ClientID id c)))).2 =
     Returns None).
Proof.
  intros Hu Hparse c. subst c.
  assert (Hcommon : forall f : Config -> Config,
            (forall c, Listen (f c) = Listen c) ->
            (forall c, TLSCertificate (f c) = TLSCertificate c) ->
            (forall c, TLSPrivateKey (f c) = TLSPrivateKey c) ->
            (forall c, TLSCaCertificate (f c) = TLSCaCertificate c) ->
            (forall c, TLSClientCertificate (f c)
                       = TLSClientCertificate c) ->
            (forall c, EnableForwarding (f c) = EnableForwarding c) ->
            (forall c, Upstream (f c) = Upstream c) ->
            passes_common (f (set_Upstream u newDefaultConfig))).
  { intros f H1 H2 H3 H4 H5 H6 H7. unfold passes_common.
    rewrite H1, H2, H3, H4, H5, H6, H7. cbn.
    repeat split; try reflexivity; try discriminate; assumption. }
  split; [reflexivity|]. split; [|split].
  - apply isValid_no_client_id; [|reflexivity..].
    apply (Hcommon (fun c => c)); reflexivity.
  - apply isValid_accepts_unverified; [|reflexivity..].
    apply (Hcommon (set_SkipTokenVerification true)); reflexivity.
  - intros id d r Hid Hd Hr.
    apply isValid_accepts_verified;
      [|reflexivity|exact Hid|exact Hd|reflexivity|exact Hr|reflexivity..].
    apply (Hcommon (fun c =>
             set_RedirectionURL r (set_DiscoveryURL d (set_ClientID id c))));
      reflexivity.
Qed.
End isValid_properties.

(** ** Reasoning about a sequence of statements *)

Lemma bind_run {A B} (m : M A) (k : A -> M B) c :
  (m ≫= k) c =
  match m c with
  | (c', inr a) => k a c'
  | (c', inl o) => (c', inl o)
  end.
Proof. reflexivity. Qed.

Lemma call_run (body : M Empty_set) c :
  (body c).2 = inl (call body c).2 /\ (call body c).1 = (body c).1.
Proof. unfold call. destruct (body c) as [c' [o|[]]]. split; reflexivity. Qed.

Lemma triple_seq_adv {B} (P R : Config -> Prop) (s : M unit) (rest : M B) Q :
  advances P R s -> triple R rest Q -> triple P (s ≫= fun _ => rest) Q.
Proof.
  intros Hs Hrest c Hc. rewrite bind_run.
  destruct (Hs c Hc) as [Hgo HR]. destruct (s c) as [c' [o|[]]];
    [discriminate|]. apply Hrest, HR.
Qed.

Lemma invariant_bind {A B} (P : Config -> Prop) (m : M A) (k : A -> M B) :
  invariant P m -> (forall a, invariant P (k a)) -> invariant P (m ≫= k).
Proof.
  intros Hm Hk c Hc. rewrite bind_run. specialize (Hm c Hc).
  destruct (m c) as [c' [o|a]]; [exact Hm|]. apply Hk, Hm.
Qed.

Lemma invariant_Return {A} (P : Config -> Prop) err :
  invariant P (Return (A := A) err).
Proof. intros c Hc. exact Hc. Qed.

Lemma invariant_Panic {A} (P : Config -> Prop) : invariant P (Panic (A := A)).
Proof. intros c Hc. exact Hc. Qed.

Lemma invariant_get (P : Config -> Prop) : invariant P get_config.
Proof. intros c Hc. exact Hc. Qed.

Lemma invariant_store {A} (P : Config -> Prop)
    (set : A -> Config -> Config) v :
  (forall c, P c -> P (set v c)) -> invariant P (store set v).
Proof. intros Hset c Hc. apply Hset, Hc. Qed.

Lemma invariant_If (P : Config -> Prop) b (body : M unit) :
  invariant P body -> invariant P (If b body).
Proof. intros Hbody c Hc. destruct b; [apply Hbody, Hc|exact Hc]. Qed.

Lemma invariant_for_range {A} (P : Config -> Prop) (l : list A) body :
  (forall x, invariant P (body x)) -> invariant P (for_range l body).
Proof.
  intros Hbody. induction l as [|x l IH]; [intros c Hc; exact Hc|].
  apply invariant_bind; [apply Hbody|intros _; exact IH].
Qed.

(** An assignment under a test never stops the call. *)
Lemma advances_If_store {A} (P R : Config -> Prop) (b : bool)
    (set : A -> Config -> Config) v :
  (forall c, P c -> R (if b then set v c else c)) ->
  advances P R (If b (store set v)).
Proof.
  intros Hset c Hc. specialize (Hset c Hc).
  destruct b; (split; [reflexivity|exact Hset]).
Qed.

Lemma advances_If_update {A} (P R : Config -> Prop) (b : bool)
    (set : A -> Config -> Config) (g : Config -> A) :
  (forall c, P c -> R (if b then set (g c) c else c)) ->
  advances P R (If b (config ← get_config; store set (g config))).
Proof.
  intros Hset c Hc. specialize (Hset c Hc).
  destruct b; (split; [reflexivity|exact Hset]).
Qed.

(** ** The command-line overlay *)

Section readOptions_rules.
Context `{!Helpers}.
Variables P R : Config -> Prop.
Variable cx : cli.Context.
Variable name : string.

Lemma string_if_nonempty_advances set :
  (forall c, P c ->
     R (if negb (cli.String cx name =? "")
        then set (cli.String cx name) c else c)) ->
  advances P R (string_if_nonempty cx name set).
Proof. apply advances_If_store. Qed.

Lemma value_if_set_advances {A} (X : cli.Context -> string -> A) set :
  (forall c, P c -> R (if cli.IsSet cx name then set (X cx name) c else c)) ->
  advances P R (value_if_set cx name X set).
Proof. apply advances_If_store. Qed.

Lemma append_if_set_advances (f : Config -> slice string) set :
  (forall c, P c ->
     R (if cli.IsSet cx name
        then set (append (f c) (elems (cli.StringSlice cx name))) c
        else c)) ->
  advances P R (append_if_set cx name f set).
Proof.
  apply (advances_If_update P R _ set
           (fun c => append (f c) (elems (cli.StringSlice cx name)))).
Qed.

Lemma cors_append_if_set_advances (f : CORS -> slice string) set :
  (forall c, P c ->
     R (if cli.IsSet cx name
        then set_CrossOrigin
               (set (append (f (CrossOrigin c))
                            (elems (cli.StringSlice cx name)))
                    (CrossOrigin c)) c
        else c)) ->
  advances P R (cors_append_if_set cx name f set).
Proof.
  apply (advances_If_update P R _ set_CrossOrigin
           (fun c => set (append (f (CrossOrigin c))
                                 (elems (cli.StringSlice cx name)))
                         (CrossOrigin c))).
Qed.

Lemma cors_value_if_set_advances {A} (X : cli.Context -> string -> A) set :
  (forall c, P c ->
     R (if cli.IsSet cx name
        then set_CrossOrigin (set (X cx name) (CrossOrigin c)) c
        else c)) ->
  advances P R (cors_value_if_set cx name X set).
Proof.
  apply (advances_If_update P R _ set_CrossOrigin
           (fun c => set (X cx name) (CrossOrigin c))).
Qed.

Lemma merge_if_set_invariant f set :
  (forall v c, P c -> P (set v c)) ->
  invariant P (merge_if_set cx name f set).
Proof.
  intros Hset. unfold merge_if_set. apply invariant_If.
  destruct (decodeKeyPairs _); [apply invariant_Return|].
  apply invariant_bind; [apply invariant_get|]. intros config.
  destruct (mergeMaps _ _);
    [apply invariant_store, Hset|apply invariant_Panic].
Qed.

Lemma resources_invariant (l : list string) :
  (forall v c, P c -> P (set_Resources v c)) ->
  invariant P
    (If (cli.IsSet cx name)
       (for_range l (fun x =>
          match Resource_Parse x with
          | inl err => Return (Some (errInvalidResource x err))
          | inr resource =>
              config ← get_config;
              store set_Resources (append (Resources config) [resource])
          end))).
Proof.
  intros Hset. apply invariant_If, invariant_for_range. intros x.
  destruct (Resource_Parse x); [apply invariant_Return|].
  apply invariant_bind; [apply invariant_get|]. intros config.
  apply invariant_store, Hset.
Qed.
End readOptions_rules.

Ltac statement_rule :=
  first [ apply string_if_nonempty_advances
        | apply value_if_set_advances
        | apply append_if_set_advances
        | apply cors_append_if_set_advances
        | apply cors_value_if_set_advances
        | apply advances_If_store ].

Ltac frame_premise :=
  let c := fresh "c" in
  intros c;
  repeat match goal with
         | |- context [if ?b then _ else _] => destruct b
         end;
  let Hc := fresh "Hc" in
  intros Hc; first [exact Hc | reflexivity].

Ltac scalar_step Pf :=
  match goal with
  | |- triple ?P (_ ≫= _) _ =>
      first [ apply (triple_seq_adv P P); [statement_rule; frame_premise|]
            | apply (triple_seq_adv P Pf); [statement_rule; frame_premise|] ]
  end.

Ltac tail_invariant :=
  repeat (apply invariant_bind;
          [ first [ apply merge_if_set_invariant
                  | apply resources_invariant ];
            (let Hc := fresh in intros ? ? Hc; exact Hc)
          | intros _ ]);
  apply invariant_Return.

Ltac readOptions_field F kf :=
  match goal with
  | |- context [readOptions ?cx ?c] =>
      change (F (readOptions cx c).1 = kf);
      unfold readOptions; rewrite (proj2 (call_run _ c));
      refine ((_ : triple (fun c' => F c' = F c) _
                     (fun r => (fun c' => F c' = kf) r.1)) c eq_refl);
      repeat scalar_step (fun c' => F c' = kf);
      match goal with
      | |- triple _ ?m _ => change (invariant (fun c' => F c' = kf) m)
      end;
      tail_invariant
  end.


Lemma triple_seq_may_stop {B} (P R : Config -> Prop) (St : outcome -> Prop)
    (s : M unit) (rest : M B) Q :
  triple P s (fun r => R r.1 /\
                match r.2 with inl o => St o | inr _ => True end) ->
  (forall c o, R c -> St o -> Q (c, inl o)) ->
  triple R rest Q ->
  triple P (s ≫= fun _ => rest) Q.
Proof.
  intros Hs Hstop Hrest c Hc. rewrite bind_run.
  specialize (Hs c Hc). destruct (s c) as [c' [o|[]]]; cbn in Hs.
  - apply Hstop; apply Hs.
  - apply Hrest, Hs.
Qed.

Lemma append_one {A} (s : slice A) (x : A) (l : list A) :
  append (append s [x]) l = append s (x :: l).
Proof.
  unfold append. destruct l as [|y l]; cbn; [reflexivity|].
  rewrite <- app_assoc. reflexivity.
Qed.

Lemma set_Resources_same c : set_Resources (Resources c) c = c.
Proof. destruct c; reflexivity. Qed.

Section readOptions_resources.
Context `{!Helpers}.

Lemma merge_if_set_stops (P : Config -> Prop) cx name f set :
  (forall v c, P c -> P (set v c)) ->
  triple P (merge_if_set cx name f set)
    (fun r => P r.1 /\
       match r.2 with
       | inl o => key_pair_stop o /\ cli.IsSet cx name = true
       | inr _ => True
       end).
Proof.
  intros Hset c Hc. unfold merge_if_set, If.
  destruct (cli.IsSet cx name); [|split; [exact Hc|exact I]].
  destruct (decodeKeyPairs _) as [msg|m].
  - split; [exact Hc|]. split; [right; exists msg|]; reflexivity.
  - rewrite bind_run. cbn [get_config]. destruct (mergeMaps _ _).
    + split; [apply Hset, Hc|exact I].
    + split; [exact Hc|]. split; [left|]; reflexivity.
Qed.

(** The loop over the descriptors, with a malformed one among them. *)
Lemma resources_loop_stops pre parsed x err post c :
  Forall2 (fun s r => Resource_Parse s = inr r) pre parsed ->
  Resource_Parse x = inl err ->
  for_range (pre ++ x :: post) (fun x =>
    match Resource_Parse x with
    | inl err => Return (Some (errInvalidResource x err))
    | inr resource =>
        config ← get_config;
        store set_Resources (append (Resources config) [resource])
    end) c
  = (set_Resources (append (Resources c) parsed) c,
     inl (Returns (Some (errInvalidResource x err)))).
Proof.
  intros Hpre Hx. revert c.
  induction Hpre as [|s r pre parsed Hs _ IH]; intros c.
  - cbn [app for_range]. rewrite bind_run, Hx. cbn [Return append].
    rewrite set_Resources_same. reflexivity.
  - cbn [app for_range]. rewrite bind_run, Hs, bind_run.
    cbn [get_config store]. rewrite IH. cbn [Resources set_Resources].
    rewrite append_one. reflexivity.
Qed.

(** The call on a resource list that splits at its first malformed
    descriptor. *)
Lemma readOptions_stops_at_malformed cx c pre x post parsed err :
  cli.IsSet cx "resource" = true ->
  elems (cli.StringSlice cx "resource") = (pre ++ x :: post)%list ->
  Forall2 (fun s r => Resource_Parse s = inr r) pre parsed ->
  Resource_Parse x = inl err ->
  let r := readOptions cx c in
  (r.2 = Returns (Some (errInvalidResource x err)) /\
   Resources r.1 = append (Resources c) parsed) \/
  (key_pair_stop r.2 /\ Resources r.1 = Resources c /\
   cli.IsSet cx "tag" || cli.IsSet cx "match-claims"
   || cli.IsSet cx "headers" = true).
Proof.
  intros Hset Hlist Hpre Hx r. subst r. unfold readOptions.
  match goal with
  | |- context [call ?body c] =>
      destruct (call_run body c) as [Hend ->]; revert Hend;
      generalize (call body c).2
  end.
  intros o.
  refine ((_ : triple (fun c' => Resources c' = Resources c) _
    (fun r => r.2 = inl o ->
       (o = Returns (Some (errInvalidResource x err)) /\
        Resources r.1 = append (Resources c) parsed) \/
       (key_pair_stop o /\ Resources r.1 = Resources c /\
        cli.IsSet cx "tag" || cli.IsSet cx "match-claims"
        || cli.IsSet cx "headers" = true))) c eq_refl).
  repeat scalar_step (fun c' => Resources c' = Resources c).
  do 3 (eapply (triple_seq_may_stop _ (fun c' => Resources c' = Resources c));
        [ apply merge_if_set_stops; intros ? ? Hc; exact Hc
        | intros c' o' Hc' [Hstop Hname] [= <-]; right;
          rewrite Hname; repeat split; try assumption;
          repeat match goal with
                 | |- context [cli.IsSet ?a ?b] => destruct (cli.IsSet a b)
                 end; reflexivity
        | ]).
  intros c' Hc'. rewrite bind_run, Hset, Hlist. cbn [If].
  rewrite (resources_loop_stops _ _ _ _ _ _ Hpre Hx).
  intros [= <-]. left. cbn [fst snd Resources set_Resources].
  rewrite Hc'. split; reflexivity.
Qed.

(** A list with a malformed descriptor splits at the first one. *)
Lemma first_malformed (descriptors : list string) :
  Exists (fun x => exists err, Resource_Parse x = inl err) descriptors ->
  exists pre x post parsed err,
    descriptors = (pre ++ x :: post)%list /\
    Forall2 (fun s r => Resource_Parse s = inr r) pre parsed /\
    Resource_Parse x = inl err.
Proof.
  induction descriptors as [|d descriptors IH]; intros Hbad.
  - inversion Hbad.
  - destruct (Resource_Parse d) as [err|r] eqn:Hd.
    + exists [], d, descriptors, [], err.
      repeat split; [constructor|exact Hd].
    + destruct IH as (pre & x & post & parsed & err & -> & Hpre & Hx).
      { inversion Hbad as [? ? [err Herr]|]; subst; [congruence|assumption]. }
      exists (d :: pre), x, post, (r :: parsed), err.
      repeat split; [constructor; assumption|exact Hx].
Qed.

End readOptions_resources.

Ltac readOptions_scalar :=
  unfold overwritten_if_nonempty, overwritten_if_set;
  match goal with
  | |- ?lhs = ?kf =>
      match lhs with
      | context G [(readOptions ?cx ?c).1] =>
          let F := constr:(fun c' : Config =>
                     ltac:(let t := context G [c'] in exact t)) in
          readOptions_field F kf
      end
  end.

Section readOptions_properties.
Context `{!Helpers}.

(** C6, as the code has it.  Whatever else the call does and however it
    ends, each scalar option tested with [IsSet] overwrites its field
    with the value the context holds when the option is set, the empty
    string included, and leaves it alone otherwise; the eight string
    options tested for a non-empty value overwrite their field exactly
    when that value is not empty. *)
Theorem readOptions_scalars (cx : cli.Context) (c : Config) :
  let c' := (readOptions cx c).1 in
  overwritten_if_nonempty cx "listen" Listen c c' /\
  overwritten_if_nonempty cx "client-secret" ClientSecret c c' /\
  overwritten_if_nonempty cx "client-id" ClientID c c' /\
  overwritten_if_nonempty cx "discovery-url" DiscoveryURL c c' /\
  overwritten_if_nonempty cx "upstream-url" Upstream c c' /\
  overwritten_if_nonempty cx "revocation-url" RevocationEndpoint c c' /\
  overwritten_if_nonempty cx "store-url" StoreURL c c' /\
  overwritten_if_nonempty cx "redirection-url" RedirectionURL c c' /\
  overwritten_if_set cx "upstream-keepalives" cli.Bool
    UpstreamKeepalives c c' /\
  overwritten_if_set cx "upstream-timeout" cli.Duration
    UpstreamTimeout c c' /\
  overwritten_if_set cx "upstream-keepalive-timeout" cli.Duration
    UpstreamKeepaliveTimeout c c' /\
  overwritten_if_set cx "idle-duration" cli.Duration IdleDuration c c' /\
  overwritten_if_set cx "skip-token-verification" cli.Bool
    SkipTokenVerification c c' /\
  overwritten_if_set cx "skip-upstream-tls-verify" cli.Bool
    SkipUpstreamTLSVerify c c' /\
  overwritten_if_set cx "encryption-key" cli.String EncryptionKey c c' /\
  overwritten_if_set cx "secure-cookie" cli.Bool SecureCookie c c' /\
  overwritten_if_set cx "cookie-access-name" cli.String
    CookieAccessName c c' /\
  overwritten_if_set cx "cookie-refresh-name" cli.String
    CookieRefreshName c c' /\
  overwritten_if_set cx "cookie-domain" cli.String CookieDomain c c' /\
  overwritten_if_set cx "no-redirects" cli.Bool NoRedirects c c' /\
  overwritten_if_set cx "tls-cert" cli.String TLSCertificate c c' /\
  overwritten_if_set cx "tls-private-key" cli.String TLSPrivateKey c c' /\
  overwritten_if_set cx "tls-ca-certificate" cli.String
    TLSCaCertificate c c' /\
  overwritten_if_set cx "tls-client-certificate" cli.String
    TLSClientCertificate c c' /\
  overwritten_if_set cx "enable-metrics" cli.Bool EnableMetrics c c' /\
  overwritten_if_set cx "enable-proxy-protocol" cli.Bool
    EnableProxyProtocol c c' /\
  overwritten_if_set cx "enable-forwarding" cli.Bool EnableForwarding c c' /\
  overwritten_if_set cx "enable-refresh-tokens" cli.Bool
    EnableRefreshTokens c c' /\
  overwritten_if_set cx "forwarding-username" cli.String
    ForwardingUsername c c' /\
  overwritten_if_set cx "forwarding-password" cli.String
    ForwardingPassword c c' /\
  overwritten_if_set cx "signin-page" cli.String SignInPage c c' /\
  overwritten_if_set cx "forbidden-page" cli.String ForbiddenPage c c' /\
  overwritten_if_set cx "json-logging" cli.Bool LogJSONFormat c c' /\
  overwritten_if_set cx "log-requests" cli.Bool LogRequests c c' /\
  overwritten_if_set cx "verbose" cli.Bool Verbose c c' /\
  overwritten_if_set cx "cors-max-age" cli.Duration
    (fun c => CORS.MaxAge (CrossOrigin c)) c c' /\
  overwritten_if_set cx "cors-credentials" cli.BoolT
    (fun c => CORS.Credentials (CrossOrigin c)) c c'.
Proof.
  intros c'. subst c'. repeat apply conj; readOptions_scalar.
Qed.

(** No statement of [readOptions] assigns or merges into [Headers] or
    [TagData]. *)
Lemma readOptions_keeps_Headers_TagData (cx : cli.Context) (c : Config) :
  Headers (readOptions cx c).1 = Headers c /\
  TagData (readOptions cx c).1 = TagData c.
Proof.
  split.
  - readOptions_field Headers (Headers c).
  - readOptions_field TagData (TagData c).
Qed.
End readOptions_properties.


Section readOptions_key_pairs.
Context `{!Helpers}.

(** C1, on the code.  [readOptions] leaves [Headers] and [TagData] as
    they were, whatever the command line: the entries of [tag] and of
    [headers] are merged into [MatchClaims].  On the default
    configuration, [--tag "title=Sign in" --headers
    X-Forwarded-Proto=https] returns no error, leaves the tag data and
    the upstream headers empty, and adds both entries to the claim
    matchers. *)
Theorem readOptions_key_pairs_into_MatchClaims :
  (forall cx c,
     Headers (readOptions cx c).1 = Headers c /\
     TagData (readOptions cx c).1 = TagData c) /\
  (let r := @readOptions sample.helpers sample.tag_and_headers
              newDefaultConfig in
   r.2 = Returns None /\
   TagData r.1 = Some ∅ /\
   Headers r.1 = Some ∅ /\
   MatchClaims r.1 =
     Some (<["title" := "Sign in"]> {["X-Forwarded-Proto" := "https"]})).
Proof.
  split; [exact readOptions_keeps_Headers_TagData|].
  cbv zeta. repeat apply conj; vm_compute; reflexivity.
Qed.
End readOptions_key_pairs.

(** ** The default configuration *)

(** C7, as the code has it.  [newDefaultConfig] is the configuration with
    the documented values, the three maps made empty, and every other
    field at its zero value: the sequences are nil slices, of length
    zero. *)
Theorem newDefaultConfig_fields :
  newDefaultConfig =
    {| Listen := "127.0.0.1:3000"; DiscoveryURL := ""; ClientID := "";
       ClientSecret := ""; RevocationEndpoint := ""; RedirectionURL := "";
       Upstream := ""; StoreURL := ""; EncryptionKey := "";
       CookieDomain := ""; CookieAccessName := "kc-access";
       CookieRefreshName := "kc-state"; TLSCertificate := "";
       TLSPrivateKey := ""; TLSCaCertificate := "";
       TLSClientCertificate := ""; ForwardingUsername := "";
       ForwardingPassword := ""; SignInPage := ""; ForbiddenPage := "";
       UpstreamKeepalives := false; SkipTokenVerification := false;
       SkipUpstreamTLSVerify := true; SecureCookie := true;
       NoRedirects := false; EnableMetrics := false;
       EnableProxyProtocol := false; EnableForwarding := false;
       EnableRefreshTokens := false; EnableSecurityFilter := false;
       LogJSONFormat := false; LogRequests := false; Verbose := false;
       UpstreamTimeout := (10 * time.Second)%Z;
       UpstreamKeepaliveTimeout := (10 * time.Second)%Z;
       IdleDuration := 0%Z; Scopes := None; AddClaims := None;
       Hostnames := None; ForwardingDomains := None; Resources := None;
       TagData := Some ∅; MatchClaims := Some ∅; Headers := Some ∅;
       CrossOrigin :=
         {| CORS.Origins := None; CORS.Methods := None;
            CORS.Headers := None; CORS.ExposedHeaders := None;
            CORS.MaxAge := 0%Z; CORS.Credentials := false |} |} /\
  (allocated (TagData newDefaultConfig) /\
   allocated (MatchClaims newDefaultConfig) /\
   allocated (Headers newDefaultConfig)) /\
  (len (Scopes newDefaultConfig) = 0 /\
   len (AddClaims newDefaultConfig) = 0 /\
   len (Hostnames newDefaultConfig) = 0 /\
   len (ForwardingDomains newDefaultConfig) = 0 /\
   len (Resources newDefaultConfig) = 0 /\
   len (CORS.Origins (CrossOrigin newDefaultConfig)) = 0 /\
   len (CORS.Methods (CrossOrigin newDefaultConfig)) = 0 /\
   len (CORS.Headers (CrossOrigin newDefaultConfig)) = 0 /\
   len (CORS.ExposedHeaders (CrossOrigin newDefaultConfig)) = 0).
Proof.
  split; [reflexivity|]. split.
  - repeat split; discriminate.
  - repeat split; reflexivity.
Qed.

(** The sequence of resources of the default configuration is the nil
    slice, not an allocated empty one. *)
Lemma newDefaultConfig_Resources_nil :
  ~ allocated (Resources newDefaultConfig).
Proof. intros Hnil. apply Hnil. reflexivity. Qed.

(** ** The file loader *)

Lemma substring_from_get (s : string) (j : nat) (c : ascii) :
  String.get j s = Some c ->
  exists rest, String.substring j (String.length s - j) s = String c rest.
Proof.
  revert j. induction s as [|a s IH]; intros j Hget; [discriminate|].
  destruct j as [|j].
  - injection Hget as ->. eexists. reflexivity.
  - apply IH in Hget as [rest Hrest]. exists rest. exact Hrest.
Qed.

(** The extension [filepath.Ext] returns is empty or starts with the
    dot. *)
Lemma Ext_loop_dot (path : string) (i : nat) :
  filepath.Ext_loop path i = "" \/
  exists rest, filepath.Ext_loop path i = String "." rest.
Proof.
  induction i as [|j IH]; [left; reflexivity|].
  cbn [filepath.Ext_loop].
  destruct (String.get j path) as [c|] eqn:Hget; [|left; reflexivity].
  destruct (filepath.IsPathSeparator c); [left; reflexivity|].
  destruct (Ascii.eqb c ".") eqn:Hdot; [|exact IH].
  apply Ascii.eqb_eq in Hdot as ->. right.
  exact (substring_from_get _ _ _ Hget).
Qed.

Section readConfigFile_properties.
Context `{!Files}.

(** C4.  The extension of a file name never equals ["json"], so
    [readConfigFile] hands the content of every file it can read to the
    YAML decoder; when the file cannot be read it returns the read
    error and decodes nothing. *)
Theorem readConfigFile_decodes_yaml (filename : string) (config : Config) :
  filepath.Ext filename <> "json" /\
  readConfigFile filename config =
    match ReadFile filename with
    | inl err => (config, Some (errHelper err))
    | inr content =>
        let '(config', err) := yaml_Unmarshal content config in
        (config', errHelper <$> err)
    end.
Proof.
  assert (Hext : filepath.Ext filename <> "json").
  { unfold filepath.Ext.
    destruct (Ext_loop_dot filename (String.length filename))
      as [-> | [rest ->]]; discriminate. }
  split; [exact Hext|].
  unfold readConfigFile. apply String.eqb_neq in Hext. rewrite Hext.
  reflexivity.
Qed.
End readConfigFile_properties.

(** ** The trailing slash *)

Lemma length_app_slash (u : string) :
  String.length (u ++ "/") = S (String.length u).
Proof.
  induction u as [|a u IH]; [reflexivity|].
  change (S (String.length (u ++ "/")) = S (S (String.length u))).
  rewrite IH. reflexivity.
Qed.

Lemma substring_app_slash (u : string) :
  String.substring (String.length u) 1 (u ++ "/") = "/" /\
  String.substring 0 (String.length u) (u ++ "/") = u.
Proof.
  induction u as [|a u [IH1 IH2]]; [split; reflexivity|].
  split; [exact IH1|].
  change (String a (String.substring 0 (String.length u) (u ++ "/"))
          = String a u).
  rewrite IH2. reflexivity.
Qed.

(** A text followed by a slash ends in a slash, and stripping it gives
    the text back. *)
Lemma HasSuffix_slash_app (u : string) :
  strings.HasSuffix (u ++ "/") "/" = true /\
  strings.TrimSuffix (u ++ "/") "/" = u.
Proof.
  assert (Hsuffix : strings.HasSuffix (u ++ "/") "/" = true).
  { unfold strings.HasSuffix. rewrite length_app_slash. cbn [String.length].
    replace (S (String.length u) - 1) with (String.length u) by lia.
    rewrite (proj1 (substring_app_slash u)). reflexivity. }
  split; [exact Hsuffix|].
  unfold strings.TrimSuffix. rewrite Hsuffix, length_app_slash.
  cbn [String.length].
  replace (S (String.length u) - 1) with (String.length u) by lia.
  exact (proj2 (substring_app_slash u)).
Qed.

Lemma HasSuffix_slash_inv (s : string) :
  strings.HasSuffix s "/" = true -> exists u, s = u ++ "/".
Proof.
  unfold strings.HasSuffix. cbn [String.length].
  induction s as [|a s IH]; [discriminate|].
  destruct s as [|b s].
  - cbn. destruct (Ascii.eqb_spec a "/") as [->|]; [|discriminate].
    intros _. exists "". reflexivity.
  - intros Hs. destruct IH as [u Hu].
    { cbn [String.length] in *. 
      replace (S (S (String.length s)) - 1) with (S (String.length s)) in Hs
        by lia.
      cbn [String.substring] in Hs.
      replace (S (String.length s) - 1) with (String.length s) by lia.
      exact Hs. }
    exists (String a u). change (String a (String b s) = String a (u ++ "/")).
    rewrite <- Hu. reflexivity.
Qed.

(** Stripping a trailing slash does not change whether the text starts
    with [https]. *)
Lemma HasPrefix_TrimSuffix_https (r : string) :
  strings.HasPrefix (strings.TrimSuffix r "/") "https" =
  strings.HasPrefix r "https".
Proof.
  destruct (strings.HasSuffix r "/") eqn:Hsuffix.
  - destruct (HasSuffix_slash_inv r Hsuffix) as [u ->].
    rewrite (proj2 (HasSuffix_slash_app u)).
    unfold strings.HasPrefix.
    do 5 (destruct u as [|? u]; [reflexivity|];
          match goal with
          | |- String.prefix _ ?t = String.prefix _ (String ?a ?u ++ ?v) =>
              change (String a u ++ v) with (String a (u ++ v));
              cbn [String.prefix]
          end;
          match goal with
          | |- (if ?b then _ else _) = _ => destruct b; [|reflexivity]
          end).
    destruct u; reflexivity.
  - unfold strings.TrimSuffix. rewrite Hsuffix. reflexivity.
Qed.

(** ** The verdict of the validator *)

Section isValid_verdict.
Context `{!Platform, !Helpers}.

Lemma first_error_all {A} (check : A -> option error) l :
  (forall x, x ∈ l -> check x = None) -> first_error check l = None.
Proof.
  induction l as [|x l IH]; intros Hall; [reflexivity|]. simpl.
  rewrite (Hall x (list_elem_of_here _ _)).
  apply IH. intros y Hy. apply Hall, list_elem_of_further, Hy.
Qed.

Lemma resources_pass l :
  first_error resource_check l = None <->
  forall resource, resource ∈ l -> Resource_IsValid resource = None.
Proof.
  split.
  - intros Hnone resource Hin.
    apply (first_error_None _ _ Hnone) in Hin. unfold resource_check in Hin.
    destruct (Resource_IsValid resource); [discriminate|reflexivity].
  - intros Hall. apply first_error_all. intros x Hx.
    unfold resource_check. rewrite (Hall x Hx). reflexivity.
Qed.

Lemma claims_pass (m : gmap string string) :
  first_error claim_check (range_order m) = None <->
  forall k claim, m !! k = Some claim -> regexp_Compile claim = None.
Proof.
  split.
  - intros Hnone k claim Hin%range_order_elem.
    apply (first_error_None _ _ Hnone) in Hin. unfold claim_check in Hin.
    simpl in Hin. destruct (regexp_Compile claim); [discriminate|reflexivity].
  - intros Hall. apply first_error_all. intros [k claim] Hx%range_order_elem.
    unfold claim_check. simpl. rewrite (Hall k claim Hx). reflexivity.
Qed.

(** The tests of [isValid], read as propositions. *)
Lemma test_pair (a b : string) :
  negb (a =? "") && (b =? "") = false <-> (b = "" -> a = "").
Proof.
  destruct (String.eqb_spec a ""), (String.eqb_spec b ""); cbn;
    intuition congruence.
Qed.

Lemma test_exists (path : string) (found : bool) :
  negb (path =? "") && negb found = false <-> (path <> "" -> found = true).
Proof.
  destruct (String.eqb_spec path ""), found; cbn; intuition congruence.
Qed.

Lemma test_key_empty (refresh : bool) (key : string) :
  refresh && (key =? "") = false <-> (refresh = true -> key <> "").
Proof.
  destruct refresh, (String.eqb_spec key ""); cbn; intuition congruence.
Qed.

Lemma test_key_length (refresh : bool) (n : nat) :
  refresh && (negb (n =? 16)%nat && negb (n =? 32)%nat) = false <->
  (refresh = true -> n = 16 \/ n = 32).
Proof.
  destruct refresh, (Nat.eqb_spec n 16), (Nat.eqb_spec n 32); cbn;
    intuition congruence.
Qed.

Lemma test_redirection (noredirects secure https : bool) :
  negb noredirects && secure && negb https = false <->
  (noredirects = false -> secure = true -> https = true).
Proof. destruct noredirects, secure, https; cbn; intuition congruence. Qed.

Lemma test_redirection_fails (noredirects secure https : bool) :
  negb noredirects && secure && negb https = true <->
  noredirects = false /\ secure = true /\ https = false.
Proof. destruct noredirects, secure, https; cbn; intuition congruence. Qed.

Ltac read_as H lemma :=
  let H' := fresh in
  pose proof (proj1 lemma H) as H'; clear H; rename H' into H.

Ltac props :=
  rewrite ?HasPrefix_TrimSuffix_https in *;
  repeat match goal with
    | H : negb (String.eqb _ "") && String.eqb _ "" = false |- _ =>
        read_as H uconstr:(test_pair _ _)
    | H : negb (String.eqb _ "") && negb _ = false |- _ =>
        read_as H uconstr:(test_exists _ _)
    | H : _ && String.eqb _ "" = false |- _ =>
        read_as H uconstr:(test_key_empty _ _)
    | H : _ && (negb _ && negb _) = false |- _ =>
        read_as H uconstr:(test_key_length _ _)
    | H : negb _ && _ && negb _ = false |- _ =>
        read_as H uconstr:(test_redirection _ _ _)
    | H : negb _ && _ && negb _ = true |- _ =>
        read_as H uconstr:(test_redirection_fails _ _ _)
    | H : _ && _ = true |- _ => apply andb_true_iff in H as [? ?]
    | H : negb _ = true |- _ => apply negb_true_iff in H
    | H : negb _ = false |- _ => apply negb_false_iff in H
    | H : String.eqb _ _ = true |- _ => apply String.eqb_eq in H
    | H : String.eqb _ _ = false |- _ => apply String.eqb_neq in H
    | H : Nat.eqb _ _ = true |- _ => apply Nat.eqb_eq in H
    | H : Nat.eqb _ _ = false |- _ => apply Nat.eqb_neq in H
    | H : first_error resource_check _ = None |- _ =>
        read_as H uconstr:(resources_pass _)
    | H : first_error claim_check _ = None |- _ =>
        read_as H uconstr:(claims_pass _)
    end.

Ltac holds :=
  repeat match goal with
         | H : _ /\ _ |- _ => destruct H
         end;
  repeat match goal with
         | |- _ /\ _ => split
         | |- _ <-> _ => split
         | |- _ -> _ /\ _ => intros ?
         end;
  solve [assumption | intros; congruence | intros; assumption].

Ltac refute :=
  repeat match goal with
         | H : _ /\ _ |- _ => destruct H
         | H : _ <-> _ |- _ => destruct H
         | H : ?P -> _, H' : ?P |- _ => specialize (H H')
         | H : _ \/ _ |- _ => destruct H
         | H : String.length ?k = _, H' : ?k = "" |- _ =>
             rewrite H' in H; discriminate
         | H : first_error resource_check ?l = Some _,
           H' : forall resource, resource ∈ ?l -> _ |- _ =>
             rewrite (proj2 (resources_pass l) H') in H; discriminate
         | H : first_error claim_check (range_order ?m) = Some _,
           H' : forall k claim, ?m !! k = Some claim -> _ |- _ =>
             rewrite (proj2 (claims_pass m) H') in H; discriminate
         end;
  congruence.

(** X1.  [isValid] returns no error exactly on the configurations that
    are in order: a listen address, consistent TLS material, and what
    the mode needs.  The trailing slash it strips plays no part. *)
Theorem isValid_accepts_valid (c : Config) :
  (isValid c).2 = Returns None <-> valid c.
Proof.
  run_isValid.
  all: cbn [snd].
  all: props.
  all: unfold valid, tls_ok, forwarding_ok, proxy_ok, verification_ok, key_ok.
  all: try match goal with
            | H : EnableForwarding _ = _ |- _ => rewrite H
            end.
  all: (split;
    [ first [discriminate | intros _]
    | first [reflexivity | intros Hvalid; exfalso] ]).
  all: try solve [holds].
  all: try solve [refute].
Qed.

(** X2.  The listen address is looked at first: validation reports a
    missing listening interface exactly when [Listen] is empty. *)
Theorem isValid_no_listen (c : Config) :
  (isValid c).2 = Returns (Some errNoListen) <-> Listen c = "".
Proof.
  run_isValid.
  all: cbn [snd].
  all: try loop_error.
  all: props.
  all: split; intros; solve [reflexivity | discriminate | congruence].
Qed.

(** X3.  Validation complains about a redirection URL that is not
    secure exactly when it gets as far as that test, redirects are on,
    the cookie is secure and the URL does not start with [https]. *)
Theorem isValid_insecure_redirection (c : Config) :
  (isValid c).2 = Returns (Some errInsecureRedirection) <->
  reaches_trim c /\ key_ok c /\
  NoRedirects c = false /\ SecureCookie c = true /\
  strings.HasPrefix (RedirectionURL c) "https" = false.
Proof.
  run_isValid.
  all: cbn [snd].
  all: try loop_error.
  all: props.
  all: unfold reaches_trim, tls_ok, key_ok.
  all: (split;
    [ first [discriminate | intros _]
    | first [reflexivity | intros Hvalid; exfalso] ]).
  all: try solve [holds].
  all: try solve [refute].
Qed.

Ltac align :=
  repeat match goal with
         | H : ?F ?c' = ?F ?c |- _ => progress rewrite H
         | H : strings.HasPrefix (?F ?c') _ = strings.HasPrefix (?F ?c) _
           |- _ => progress rewrite H
         end.

(** The claim matchers pass or fail together in whatever order they are
    visited. *)
Lemma claims_pass_in_order (l : list (string * string))
    (m : gmap string string) :
  l ≡ₚ map_to_list m ->
  first_error claim_check l = None <->
  forall k claim, m !! k = Some claim -> regexp_Compile claim = None.
Proof.
  intros Hperm. split.
  - intros Hnone k claim Hin%elem_of_map_to_list.
    rewrite <- Hperm in Hin.
    apply (first_error_None _ _ Hnone) in Hin. unfold claim_check in Hin.
    simpl in Hin. destruct (regexp_Compile claim); [discriminate|reflexivity].
  - intros Hall. apply first_error_all. intros [k claim] Hx.
    rewrite Hperm in Hx. apply elem_of_map_to_list in Hx.
    unfold claim_check. simpl. rewrite (Hall k claim Hx). reflexivity.
Qed.

Lemma claims_fail_together (l l' : list (string * string))
    (m : gmap string string) (e : error) :
  l ≡ₚ map_to_list m -> l' ≡ₚ map_to_list m ->
  first_error claim_check l = None -> first_error claim_check l' = Some e ->
  False.
Proof.
  intros Hl Hl' Hnone Hsome.
  rewrite (proj2 (claims_pass_in_order l' m Hl')
                 (proj1 (claims_pass_in_order l m Hl) Hnone)) in Hsome.
  discriminate.
Qed.

Lemma isValid_verdict_alike order Hperm (c c' : Config) :
  validated_alike c c' ->
  same_verdict (@isValid (reordered _ order Hperm) _ c').2 (isValid c).2.
Proof.
  unfold validated_alike. intros Halike.
  repeat match goal with
         | H : _ /\ _ |- _ => destruct H
         end.
  unfold_isValid; fields.
  cbn [url_Parse regexp_Compile range_order reordered].
  repeat (rewrite ?HasPrefix_TrimSuffix_https; align; step).
  all: cbn [snd].
  all: try solve [left; congruence].
  all: try solve [repeat loop_error; right; do 4 eexists; split; reflexivity].
  all: exfalso;
    match goal with
    | Hnone : first_error claim_check _ = None,
      Hsome : first_error claim_check _ = Some _ |- _ =>
        first [ exact (claims_fail_together _ _ _ _ (Hperm _)
                         (range_order_perm _) Hnone Hsome)
              | exact (claims_fail_together _ _ _ _ (range_order_perm _)
                         (Hperm _) Hnone Hsome) ]
    end.
Qed.


(** X5.  [isValid] writes to the configuration exactly when it gets as
    far as the redirection URL, whatever it returns afterwards: a
    configuration rejected for its encryption key, its redirection URL,
    its store, a resource or a claim matcher has lost the trailing slash
    all the same; one rejected earlier, a forwarding proxy and a proxy
    that skips verification are left as they were. *)
Theorem isValid_writes (c : Config) :
  (reaches_trim c ->
   (isValid c).1 =
     set_RedirectionURL (strings.TrimSuffix (RedirectionURL c) "/") c) /\
  (~ reaches_trim c -> (isValid c).1 = c).
Proof.
  split.
  - intros (Hlisten & Htls & Hforwarding & Hupstream & Hparse & Hskip
            & Hclient & Hdiscovery).
    run_isValid. all: cbn [fst]. all: props.
    all: unfold tls_ok in Htls.
    all: try solve [refute].
    all: unfold strings.TrimSuffix;
      match goal with
      | H : strings.HasSuffix _ _ = _ |- _ => rewrite H
      end; solve [reflexivity | symmetry; apply set_RedirectionURL_same].
  - intros Hstops. run_isValid. all: cbn [fst]. all: try reflexivity.
    all: exfalso; apply Hstops; props; unfold reaches_trim, tls_ok.
    all: holds.
Qed.

Lemma isValid_leaves (c : Config) : trimmed c (isValid c).1.
Proof.
  run_isValid;
    solve [ left; reflexivity
          | right; split; [assumption|reflexivity] ].
Qed.


(** C9.  With forwarding off, token verification on and refresh tokens
    on, a key whose length is neither 16 nor 32 is refused.  When every
    check before the key passes, the error is the one of the key: the
    missing key for the empty key, and otherwise the error that cites
    the length of the key; when one does not, the error is the one of
    that earlier check.  With a key of length 16 or 32, no error
    [isValid] returns is an error of the encryption key.  The message
    for length 15 cites 15. *)
Theorem isValid_encryption_key (c : Config) :
  EnableForwarding c = false ->
  SkipTokenVerification c = false ->
  EnableRefreshTokens c = true ->
  let n := String.length (EncryptionKey c) in
  (n <> 16 -> n <> 32 ->
   (reaches_trim c ->
    (isValid c).2 =
      Returns (Some (if EncryptionKey c =? "" then errNoEncryptionKey
                     else errEncryptionKeyLength n))) /\
   (~ reaches_trim c ->
    exists e, (isValid c).2 = Returns (Some e) /\ before_key_check e)) /\
  (n = 16 \/ n = 32 ->
   forall e, (isValid c).2 = Returns (Some e) ->
     ~ encryption_key_error e) /\
  Error (errEncryptionKeyLength 15) =
    "the encryption key (15) must be either 16 or 32 characters for AES-128/AES-256 selection".
Proof.
  intros Hfwd Hskip Hrefresh n. subst n. split; [|split].
  - intros H16 H32. split.
    + intros (Hlisten & Htls & _ & Hupstream & Hparse & _
              & Hclient & Hdiscovery).
      unfold tls_ok in Htls.
      run_isValid. all: cbn [snd]. all: props.
      all: try solve [refute].
      all: try solve [exfalso;
                      match goal with
                      | H : EnableRefreshTokens _ = true -> _ \/ _ |- _ =>
                          destruct (H Hrefresh); contradiction
                      end].
      all: match goal with
           | H : EnableRefreshTokens _ && _ = false |- _ =>
               rewrite Hrefresh in H; discriminate
           end.
    + intros Hstops.
      run_isValid. all: cbn [snd].
      all: try solve [eexists; split; [reflexivity|exact I]].
      all: exfalso; apply Hstops; props; unfold reaches_trim, tls_ok.
      all: holds.
  - intros Hlen.
    assert (Hnonempty : (EncryptionKey c =? "") = false).
    { apply String.eqb_neq. intros Hempty. rewrite Hempty in Hlen.
      destruct Hlen; discriminate. }
    assert (Hok : negb (String.length (EncryptionKey c) =? 16)%nat
                  && negb (String.length (EncryptionKey c) =? 32)%nat
                  = false).
    { destruct Hlen as [->| ->]; reflexivity. }
    unfold_isValid; fields. rewrite Hfwd, Hskip. cbn [negb].
    repeat step; rewrite ?Hrefresh, ?Hnonempty, ?Hok in *;
      cbn [negb andb] in *; try discriminate;
      cbn [snd]; try loop_error; intros ? [= <-]; exact id.
  - reflexivity.
Qed.
End isValid_verdict.

(** ** The list-valued options *)

(** The same bookkeeping for a statement that updates the field it
    reads. *)
Ltac update_premise :=
  let c := fresh "c" in
  intros c;
  repeat match goal with
         | |- context [if ?b then _ else _] => destruct b
         end;
  let Hc := fresh "Hc" in
  intros Hc; fields;
  first [exact Hc | reflexivity | rewrite Hc; reflexivity].

Ltac update_step Pf :=
  match goal with
  | |- triple ?P (_ ≫= _) _ =>
      first [ apply (triple_seq_adv P P); [statement_rule; update_premise|]
            | apply (triple_seq_adv P Pf); [statement_rule; update_premise|] ]
  end.

Ltac readOptions_update F kf :=
  match goal with
  | |- context [readOptions ?cx ?c] =>
      change (F (readOptions cx c).1 = kf);
      unfold readOptions; rewrite (proj2 (call_run _ c));
      refine ((_ : triple (fun c' => F c' = F c) _
                     (fun r => (fun c' => F c' = kf) r.1)) c eq_refl);
      repeat update_step (fun c' => F c' = kf);
      match goal with
      | |- triple _ ?m _ => change (invariant (fun c' => F c' = kf) m)
      end;
      tail_invariant
  end.

Ltac readOptions_list :=
  unfold appended_if_set, overwritten_if_set;
  match goal with
  | |- ?lhs = ?kf =>
      match lhs with
      | context G [(readOptions ?cx ?c).1] =>
          let F := constr:(fun c' : Config =>
                     ltac:(let t := context G [c'] in exact t)) in
          readOptions_update F kf
      end
  end.

Section readOptions_lists.
Context `{!Helpers}.

(** X7.  Whatever else the call does and however it ends, the
    list-valued options add to what the configuration holds: the values
    of [add-claims], [forwarding-domains], [hostname] and of the four
    CORS lists are appended to the field, in order; those of [scope]
    replace it.  The exposed headers are read from
    [cors-exposed-headers]. *)
Theorem readOptions_lists (cx : cli.Context) (c : Config) :
  let c' := (readOptions cx c).1 in
  appended_if_set cx "add-claims" AddClaims c c' /\
  appended_if_set cx "forwarding-domains" ForwardingDomains c c' /\
  appended_if_set cx "hostname" Hostnames c c' /\
  appended_if_set cx "cors-origins"
    (fun c => CORS.Origins (CrossOrigin c)) c c' /\
  appended_if_set cx "cors-methods"
    (fun c => CORS.Methods (CrossOrigin c)) c c' /\
  appended_if_set cx "cors-headers"
    (fun c => CORS.Headers (CrossOrigin c)) c c' /\
  appended_if_set cx "cors-exposed-headers"
    (fun c => CORS.ExposedHeaders (CrossOrigin c)) c c' /\
  overwritten_if_set cx "scope" cli.StringSlice Scopes c c'.
Proof.
  intros c'. subst c'. unfold appended_if_set.
  repeat apply conj; readOptions_list.
Qed.

(** X8.  The security filter can be switched on from the command line
    and never off: giving [enable-security-filter] sets the field to
    true whatever value the flag carries. *)
Theorem readOptions_security_filter (cx : cli.Context) (c : Config) :
  EnableSecurityFilter (readOptions cx c).1 =
  cli.IsSet cx "enable-security-filter" || EnableSecurityFilter c.
Proof.
  transitivity (if cli.IsSet cx "enable-security-filter" then true
                else EnableSecurityFilter c);
    [|destruct (cli.IsSet cx "enable-security-filter"); reflexivity].
  readOptions_field EnableSecurityFilter
    (if cli.IsSet cx "enable-security-filter" then true
     else EnableSecurityFilter c).
Qed.
End readOptions_lists.

(** ** How the overlay ends *)

Section readOptions_ends.
Context `{!Helpers}.

(** How the loop over the descriptors ends: it runs to its end, or
    returns the error of a descriptor of the list that does not parse. *)
Lemma resources_loop_ends (l : list string) (c : Config) :
  let r := for_range l (fun x =>
    match Resource_Parse x with
    | inl err => Return (Some (errInvalidResource x err))
    | inr resource =>
        config ← get_config;
        store set_Resources (append (Resources config) [resource])
    end) c in
  r.2 = inr tt \/
  exists x err,
    x ∈ l /\ Resource_Parse x = inl err /\
    r.2 = inl (Returns (Some (errInvalidResource x err))).
Proof.
  revert c. induction l as [|y l IH]; intros c; [left; reflexivity|].
  cbn [for_range]. rewrite bind_run.
  destruct (Resource_Parse y) as [err|resource] eqn:Hy.
  - right. exists y, err. cbn [Return snd].
    repeat split; [apply list_elem_of_here|exact Hy].
  - rewrite bind_run. cbn [get_config store].
    destruct (IH (set_Resources (append (Resources c) [resource]) c))
      as [Hend|(x & err & Hin & Hx & Hend)]; [left; exact Hend|].
    right. exists x, err.
    repeat split; [apply list_elem_of_further, Hin|exact Hx|exact Hend].
Qed.

(** The loop over descriptors that all parse. *)
Lemma resources_loop_parsed (l : list string) (parsed : list Resource) c :
  Forall2 (fun s r => Resource_Parse s = inr r) l parsed ->
  for_range l (fun x =>
    match Resource_Parse x with
    | inl err => Return (Some (errInvalidResource x err))
    | inr resource =>
        config ← get_config;
        store set_Resources (append (Resources config) [resource])
    end) c
  = (set_Resources (append (Resources c) parsed) c, inr tt).
Proof.
  intros Hl. revert c. induction Hl as [|s r l parsed Hs _ IH]; intros c.
  - cbn [for_range append]. rewrite set_Resources_same. reflexivity.
  - cbn [for_range]. rewrite bind_run, Hs, bind_run.
    cbn [get_config store]. rewrite IH. cbn [Resources set_Resources].
    rewrite append_one. reflexivity.
Qed.

Lemma key_pairs_given_true (cx : cli.Context) (name : string) :
  name ∈ ["tag"; "match-claims"; "headers"] ->
  cli.IsSet cx name = true -> key_pairs_given cx = true.
Proof.
  unfold key_pairs_given. intros Hname Hset.
  repeat (apply elem_of_cons in Hname as [->|Hname];
          [rewrite Hset; rewrite ?orb_true_r; reflexivity|]).
  inversion Hname.
Qed.


(** X10.  The claim matchers change only when a key-pair option is on
    the command line, and the resources only when [resource] is. *)
Theorem readOptions_untouched (cx : cli.Context) (c : Config) :
  (key_pairs_given cx = false ->
   MatchClaims (readOptions cx c).1 = MatchClaims c) /\
  (cli.IsSet cx "resource" = false ->
   Resources (readOptions cx c).1 = Resources c).
Proof.
  split.
  - intros Hnone. unfold key_pairs_given in Hnone.
    apply orb_false_elim in Hnone as [Hnone Hheaders].
    apply orb_false_elim in Hnone as [Htag Hclaims].
    unfold readOptions. rewrite (proj2 (call_run _ c)).
    refine ((_ : triple (fun c' => MatchClaims c' = MatchClaims c) _
                   (fun r => MatchClaims r.1 = MatchClaims c)) c eq_refl).
    repeat scalar_step (fun c' => MatchClaims c' = MatchClaims c).
    unfold merge_if_set. rewrite Htag, Hclaims, Hheaders.
    do 3 (apply (triple_seq_adv (fun c' => MatchClaims c' = MatchClaims c)
                   (fun c' => MatchClaims c' = MatchClaims c));
          [intros ? Hc; split; [reflexivity|exact Hc]|]).
    match goal with
    | |- triple _ ?m _ =>
        change (invariant (fun c' => MatchClaims c' = MatchClaims c) m)
    end.
    tail_invariant.
  - intros Hnone.
    unfold readOptions. rewrite (proj2 (call_run _ c)).
    refine ((_ : triple (fun c' => Resources c' = Resources c) _
                   (fun r => Resources r.1 = Resources c)) c eq_refl).
    repeat scalar_step (fun c' => Resources c' = Resources c).
    match goal with
    | |- triple _ ?m _ =>
        change (invariant (fun c' => Resources c' = Resources c) m)
    end.
    do 3 (apply invariant_bind;
          [apply merge_if_set_invariant; intros ? ? Hc; exact Hc|intros _]).
    apply invariant_bind; [|intros _; apply invariant_Return].
    rewrite Hnone. intros c' Hc'. exact Hc'.
Qed.

End readOptions_ends.

(** ** The flag table and the overlay *)

Ltac unfold_readOptions :=
  unfold readOptions, string_if_nonempty, value_if_set, append_if_set,
    cors_append_if_set, cors_value_if_set, merge_if_set.

Section readOptions_context.
Context `{!Helpers}.

(** X12.  [readOptions] learns about the command line through ninety-one
    look-ups and nothing else: two contexts that answer them alike give
    the same configuration and the same outcome. *)
Theorem readOptions_reads (cx cx' : cli.Context) :
  Forall (same_answer cx cx') lookups ->
  forall c, readOptions cx c = readOptions cx' c.
Proof.
  unfold lookups. intros Hsame c.
  repeat match goal with
         | H : Forall _ (_ :: _) |- _ =>
             let Hx := fresh "Hx" in
             apply Forall_cons in H as [Hx H]; cbn [same_answer] in Hx
         end.
  unfold_readOptions.
  repeat match goal with
         | H : _ cx _ = _ cx' _ |- _ => rewrite H; clear H
         end.
  reflexivity.
Qed.

(** X15.  On a command line that gives no flag, where no option is set
    and the string flags of the table answer with their values, the two
    string options that have a value in the table and are tested for a
    non-empty value overwrite the configuration: whatever [Listen] and
    [RevocationEndpoint] held, they end up with the defaults of the
    table.  Nothing else changes and the call returns no error. *)
Theorem readOptions_nothing_given (oauthURL : string) (cx : cli.Context)
    (c : Config) :
  nothing_given (getOptions oauthURL) cx ->
  readOptions cx c =
    (set_RevocationEndpoint "/oauth2/revoke"
       (set_Listen "127.0.0.1:3000" c),
     Returns None).
Proof.
  intros [Hset Hstring]. unfold_readOptions. rewrite !Hset.
  rewrite (Hstring "listen" _ eq_refl),
    (Hstring "client-secret" _ eq_refl), (Hstring "client-id" _ eq_refl),
    (Hstring "discovery-url" _ eq_refl), (Hstring "upstream-url" _ eq_refl),
    (Hstring "revocation-url" _ eq_refl), (Hstring "store-url" _ eq_refl),
    (Hstring "redirection-url" _ eq_refl).
  reflexivity.
Qed.
End readOptions_context.

(** X13.  The table and the overlay do not name the same options.
    [readOptions] looks up [cors-exposed-headers], which the table does
    not declare; the table declares [config], [token-validate-only] and
    [cors-exposes-headers], which [readOptions] never looks up; and
    seven look-ups ask for a value of another kind than the flag
    declared under the name. *)
Theorem getOptions_against_readOptions (oauthURL : string) :
  undeclared (getOptions oauthURL) = ["cors-exposed-headers"] /\
  unread (getOptions oauthURL) =
    ["config"; "token-validate-only"; "cors-exposes-headers"] /\
  of_another_kind (getOptions oauthURL) =
    [bool_of "upstream-keepalives"; bool_of "skip-upstream-tls-verify";
     bool_of "secure-cookie"; string_of "cookie-domain";
     bool_of "json-logging"; bool_of "log-requests";
     boolt_of "cors-credentials"].
Proof. repeat split; vm_compute; reflexivity. Qed.

(** X14.  No two flags of the table have the same name, whatever the
    callback path. *)
Theorem getOptions_names_distinct (oauthURL : string) :
  NoDup (flag.Name <$> getOptions oauthURL).
Proof.
  apply (bool_decide_unpack _). vm_compute. exact I.
Qed.

(** ** The custom pages, and a start with no flag *)

Section pages.
Context `{!Platform, !Helpers}.

(** X16.  A custom page is one with a non-empty path.  Giving
    [signin-page] or [forbidden-page] on the command line decides
    whether there is one, so that the empty path removes the page the
    configuration had; validation does not touch either. *)
Theorem custom_pages (cx : cli.Context) (c : Config) :
  (hasCustomSignInPage c = true <-> SignInPage c <> "") /\
  (hasCustomForbiddenPage c = true <-> ForbiddenPage c <> "") /\
  hasCustomSignInPage (readOptions cx c).1 =
    (if cli.IsSet cx "signin-page"
     then negb (cli.String cx "signin-page" =? "")
     else hasCustomSignInPage c) /\
  hasCustomForbiddenPage (readOptions cx c).1 =
    (if cli.IsSet cx "forbidden-page"
     then negb (cli.String cx "forbidden-page" =? "")
     else hasCustomForbiddenPage c) /\
  hasCustomSignInPage (isValid c).1 = hasCustomSignInPage c /\
  hasCustomForbiddenPage (isValid c).1 = hasCustomForbiddenPage c.
Proof.
  assert (Hsignin : SignInPage (readOptions cx c).1 =
                    if cli.IsSet cx "signin-page"
                    then cli.String cx "signin-page" else SignInPage c).
  { readOptions_field SignInPage
      (if cli.IsSet cx "signin-page"
       then cli.String cx "signin-page" else SignInPage c). }
  assert (Hforbidden : ForbiddenPage (readOptions cx c).1 =
                       if cli.IsSet cx "forbidden-page"
                       then cli.String cx "forbidden-page"
                       else ForbiddenPage c).
  { readOptions_field ForbiddenPage
      (if cli.IsSet cx "forbidden-page"
       then cli.String cx "forbidden-page" else ForbiddenPage c). }
  unfold hasCustomSignInPage, hasCustomForbiddenPage.
  rewrite Hsignin, Hforbidden.
  split; [|split; [|split; [|split; [|split]]]].
  - destruct (String.eqb_spec (SignInPage c) ""); cbn; split; congruence.
  - destruct (String.eqb_spec (ForbiddenPage c) ""); cbn; split; congruence.
  - destruct (cli.IsSet cx "signin-page"); [|reflexivity].
    destruct (cli.String cx "signin-page" =? ""); reflexivity.
  - destruct (cli.IsSet cx "forbidden-page"); [|reflexivity].
    destruct (cli.String cx "forbidden-page" =? ""); reflexivity.
  - destruct (isValid_leaves c) as [->|[_ ->]]; reflexivity.
  - destruct (isValid_leaves c) as [->|[_ ->]]; reflexivity.
Qed.

Lemma isValid_no_upstream (c : Config) :
  Listen c <> "" ->
  TLSCertificate c = "" -> TLSPrivateKey c = "" ->
  TLSCaCertificate c = "" -> TLSClientCertificate c = "" ->
  EnableForwarding c = false -> Upstream c = "" ->
  (isValid c).2 = Returns (Some errNoUpstream).
Proof.
  intros Hlisten%String.eqb_neq Hcertificate Hkey Hca Hclient Hforwarding
    Hupstream.
  unfold_isValid; fields.
  rewrite Hlisten, Hcertificate, Hkey, Hca, Hclient, Hforwarding, Hupstream.
  reflexivity.
Qed.

(** X17.  Started with no flag at all (no option set, the string flags
    of the table answering with their values), the proxy is refused for
    its missing upstream: the defaults, read through an empty command
    line, do not validate. *)
Theorem isValid_nothing_given (oauthURL : string) (cx : cli.Context) :
  nothing_given (getOptions oauthURL) cx ->
  (readOptions cx newDefaultConfig).2 = Returns None /\
  (isValid (readOptions cx newDefaultConfig).1).2 =
    Returns (Some errNoUpstream).
Proof.
  intros [Hset Hstring].
  assert (Hread : readOptions cx newDefaultConfig =
                  (set_RevocationEndpoint "/oauth2/revoke"
                     (set_Listen "127.0.0.1:3000" newDefaultConfig),
                   Returns None)).
  { unfold_readOptions. rewrite !Hset.
    rewrite (Hstring "listen" _ eq_refl),
      (Hstring "client-secret" _ eq_refl), (Hstring "client-id" _ eq_refl),
      (Hstring "discovery-url" _ eq_refl),
      (Hstring "upstream-url" _ eq_refl),
      (Hstring "revocation-url" _ eq_refl), (Hstring "store-url" _ eq_refl),
      (Hstring "redirection-url" _ eq_refl).
    reflexivity. }
  rewrite Hread. split; [reflexivity|].
  apply isValid_no_upstream; solve [reflexivity | discriminate].
Qed.
End pages.

Lemma backwards_perm (m : gmap string string) :
  given.backwards m ≡ₚ map_to_list m.
Proof. apply reverse_Permutation. Qed.

Lemma nothing_given_nothing (flags : list flag.Flag) :
  nothing_given flags (given.nothing flags).
Proof.
  split; [reflexivity|]. intros name v. unfold string_default.
  cbn [cli.String given.nothing].
  destruct (find _ flags) as [[]|]; intros [= <-]; reflexivity.
Qed.

(** ** The properties at work

    The theorems above applied to, and the definitions run on, the
    configurations and command lines of [sample], on the platform and with
    the helpers given there. *)

Section at_work.
Local Existing Instance sample.platform.
Local Existing Instance sample.helpers.

(** Validating the reverse proxy strips the slash that ends its
    redirection URL, and nothing else. *)
Lemma isValid_frame_reverse_proxy :
  (isValid sample.reverse_proxy).1 =
  set_RedirectionURL "https://proxy.example.com" sample.reverse_proxy.
Proof.
  apply (isValid_frame sample.reverse_proxy); vm_compute; reflexivity.
Defined.

(** A certificate without a private key is refused; a certificate and
    a private key that exist raise no error of the pair. *)
Lemma isValid_tls_pair_certificate :
  (isValid sample.certificate_only).2 = Returns (Some errNoPrivateKey) /\
  (forall e, (isValid sample.certificate_and_key).2 = Returns (Some e) ->
             ~ tls_pair_error e).
Proof.
  split.
  - apply (isValid_tls_pair sample.certificate_only);
      vm_compute; solve [reflexivity | discriminate].
  - apply (isValid_tls_pair sample.certificate_and_key).
    right. vm_compute. repeat split; discriminate.
Defined.

(** With forwarding off the resource without a URI is refused. *)
Lemma isValid_refuses_bad_resource :
  exists e, (isValid sample.reverse_proxy_bad_resource).2
            = Returns (Some e).
Proof.
  apply (isValid_resources_and_claims sample.reverse_proxy_bad_resource);
    [vm_compute; reflexivity|].
  left. exists sample.no_uri. split; [apply list_elem_of_here|].
  vm_compute. discriminate.
Defined.

(** C2, as stated, fails: the forwarding proxy holds a resource without
    a URI and a claim matcher that does not compile, and validation
    accepts it. *)
Lemma isValid_accepts_forwarding_proxy :
  EnableForwarding sample.forwarding_proxy = true /\
  (exists resource,
     resource ∈ elems (Resources sample.forwarding_proxy) /\
     Resource_IsValid resource <> None) /\
  (exists k claim,
     entries (MatchClaims sample.forwarding_proxy) !! k = Some claim /\
     regexp_Compile claim <> None) /\
  isValid sample.forwarding_proxy = (sample.forwarding_proxy, Returns None).
Proof.
  split; [reflexivity|]. split; [|split].
  - exists sample.no_uri. split; [apply list_elem_of_here|].
    vm_compute. discriminate.
  - exists "iss", "(". split; vm_compute; [reflexivity|discriminate].
  - vm_compute. reflexivity.
Qed.

(** The defaults with an upstream are refused for the client id. *)
Lemma isValid_upstream_only :
  isValid sample.upstream_only =
  (sample.upstream_only, Returns (Some errNoClientID)).
Proof.
  destruct (isValid_default_with_upstream "http://127.0.0.1:8080")
    as (_ & Hrefused & _); [discriminate|reflexivity|exact Hrefused].
Defined.

(** C3, as stated, fails: the defaults with a valid upstream URL and
    forwarding off do not pass validation. *)
Lemma isValid_refuses_upstream_only :
  url_Parse (Upstream sample.upstream_only) = None /\
  EnableForwarding sample.upstream_only = false /\
  (isValid sample.upstream_only).2 <> Returns None.
Proof. vm_compute. repeat split; discriminate. Qed.



(** C6, as stated, fails: [listen] is set, to the empty string, and the
    listen address is not overwritten with it. *)
Lemma readOptions_keeps_listen :
  cli.IsSet sample.empty_listen "listen" = true /\
  cli.String sample.empty_listen "listen" = "" /\
  Listen (readOptions sample.empty_listen newDefaultConfig).1
  = "127.0.0.1:3000".
Proof. repeat apply conj; vm_compute; reflexivity. Qed.
End at_work.

(** ** The further properties at work *)

Section further.
Local Existing Instance sample.platform.
Local Existing Instance sample.helpers.

(** A key of 15 characters is refused with the error that cites 15. *)
Lemma isValid_encryption_key_15 :
  (isValid sample.key15).2 = Returns (Some (errEncryptionKeyLength 15)) /\
  Error (errEncryptionKeyLength 15) =
    "the encryption key (15) must be either 16 or 32 characters for AES-128/AES-256 selection".
Proof.
  destruct (isValid_encryption_key sample.key15)
    as (Hkey & _ & Hmessage); [reflexivity..|].
  split; [|exact Hmessage].
  destruct Hkey as [Hexact _]; [discriminate..|].
  apply Hexact. unfold reaches_trim, tls_ok.
  repeat split; vm_compute; intros;
    solve [reflexivity | discriminate | congruence].
Defined.




(** The flag [cors-exposes-headers] of the table has no effect. *)
Lemma readOptions_ignores_exposes_headers :
  readOptions given.exposes_headers newDefaultConfig =
  readOptions (sample.command_line []) newDefaultConfig.
Proof.
  apply (readOptions_reads given.exposes_headers (sample.command_line [])).
  unfold lookups. repeat (constructor; [vm_compute; reflexivity|]).
  constructor.
Defined.

(** With no flag given, a listen address read from a file is lost. *)
Lemma readOptions_nothing_given_resets_listen :
  readOptions (given.nothing (getOptions "/oauth"))
              (set_Listen ":8443" newDefaultConfig) =
    (set_RevocationEndpoint "/oauth2/revoke"
       (set_Listen "127.0.0.1:3000" (set_Listen ":8443" newDefaultConfig)),
     Returns None).
Proof.
  apply (readOptions_nothing_given "/oauth"). apply nothing_given_nothing.
Defined.

(** The proxy started with no flag is refused. *)
Lemma isValid_nothing_given_no_upstream :
  (readOptions (given.nothing (getOptions "/oauth")) newDefaultConfig).2 =
    Returns None /\
  (isValid (readOptions (given.nothing (getOptions "/oauth"))
              newDefaultConfig).1).2 =
    Returns (Some errNoUpstream).
Proof.
  apply (isValid_nothing_given "/oauth"). apply nothing_given_nothing.
Defined.
End further.
